(** * celery.managers: the Django managers of the task-result store

    A shallow embedding of [celery/managers.py] (classes [TaskManager]
    and [TaskSetManager]) over an explicit model of the database
    connection the managers talk to, followed by the properties of the
    result store stated against that embedding. *)

From Stdlib Require Import ZArith Lia String List.
From stdpp Require Import base option list gmap strings.
From Equations Require Import Equations.

Local Open Scope string_scope.
Local Open Scope Z_scope.

(** ** Exceptions *)

(** The DB-API exception classes a backend raises.  [IntegrityError] is
    what a unique-key violation on INSERT gives; [DatabaseError] is what
    psycopg2 gives for every statement sent on a transaction that an
    earlier failure broke; [OperationalError] stands for the failures
    that have nothing to do with another writer (lost connection, disk
    full, ...). *)
Inductive DbErrorClass : Type :=
| IntegrityError
| DatabaseError
| OperationalError.

Record DbError : Type := mkDbError {
  err_class : DbErrorClass;
  err_msg : string
}.

(** What a manager method can raise: the model's [DoesNotExist], an
    error coming out of the backend, or the [OverflowError] of
    [datetime] arithmetic.  All are subclasses of Python's
    [Exception]. *)
Inductive Exn : Type :=
| DoesNotExist
| BackendError (e : DbError)
| OverflowError.

(** [except Exception:] *)
Definition is_Exception (e : Exn) : bool := true.

(** [except self.model.DoesNotExist:] *)
Definition is_DoesNotExist (e : Exn) : bool :=
  match e with
  | DoesNotExist => true
  | BackendError _ => false
  | OverflowError => false
  end.

Inductive Outcome (A : Type) : Type :=
| Return (a : A)
| Raise (e : Exn).
Arguments Return {A} a.
Arguments Raise {A} e.

(** ** The database connection *)

(** The calls that reach the connection, in the order they are made. *)
Inductive Event : Type :=
| EvGetOrCreate (key : string)
| EvSave (key : string)
| EvGet (key : string)
| EvSelect (cutoff : Z)
| EvDelete (cutoff : Z)
| EvRollback.

(** A Django model with a unique string key and a [date_done] column
    declared [auto_now]: every write stamps it with the current time. *)
Class Model (Row : Type) : Type := {
  pk : Row -> string;
  date_done_of : Row -> Z;
  auto_now : Z -> Row -> Row
}.

Section Connection.
Context {Row : Type} `{Model Row}.

(** One table, the wall clock, and the behaviour of the backend yet to
    come: the [i]-th call made to the backend from now on (a query, or
    a rollback) fails with [e] when [faults] holds [Some e] at position
    [i], and goes through otherwise. *)
Record DB : Type := mkDB {
  rows : gmap string Row;
  clock : Z;
  faults : list (option DbError);
  log : list Event
}.

Definition M (A : Type) : Type := DB -> Outcome A * DB.

Definition ret {A} (a : A) : M A := fun db => (Return a, db).

Definition raise {A} (e : Exn) : M A := fun db => (Raise e, db).

Definition bind {A B} (m : M A) (k : A -> M B) : M B := fun db =>
  match m db with
  | (Return a, db') => k a db'
  | (Raise e, db') => (Raise e, db')
  end.

(** [try: body / except <class>: handler]; an exception the clause
    does not match keeps propagating. *)
Definition try_except {A} (body : M A) (catches : Exn -> bool)
    (handler : Exn -> M A) : M A := fun db =>
  match body db with
  | (Return a, db') => (Return a, db')
  | (Raise e, db') =>
      if catches e then handler e db' else (Raise e, db')
  end.

(** The error the backend answers the next query with, if any. *)
Definition next_fault (db : DB) : option DbError :=
  match faults db with
  | Some e :: _ => Some e
  | _ => None
  end.

(** The connection after one more query has been sent. *)
Definition sent (ev : Event) (db : DB) : DB :=
  mkDB (rows db) (clock db) (tail (faults db)) (log db ++ [ev]).

(** One query on the connection: it is recorded, it uses up the next
    entry of [faults], and it raises when that entry is an error.  A
    query that raises leaves the table as it was. *)
Definition query (ev : Event) : M unit := fun db =>
  match next_fault db with
  | Some e => (Raise (BackendError e), sent ev db)
  | None => (Return tt, sent ev db)
  end.

Definition set_rows (f : gmap string Row -> gmap string Row) : M unit :=
  fun db => (Return tt, mkDB (f (rows db)) (clock db) (faults db) (log db)).

(** [datetime.now()] *)
Definition datetime_now : M Z := fun db => (Return (clock db), db).

(** A [datetime] is a number of microseconds since 0001-01-01 00:00:00;
    [datetime.max] is 9999-12-31 23:59:59.999999. *)
Definition datetime_min : Z := 0.
Definition datetime_max : Z := 3652059 * 86400 * 1000000 - 1.

(** [d - delta] for a [datetime] and a [timedelta]: an [OverflowError]
    when the result is not a [datetime]. *)
Definition datetime_sub (d delta : Z) : M Z :=
  if decide (datetime_min <= d - delta <= datetime_max)
  then ret (d - delta)
  else raise OverflowError.

(** [Manager.get_or_create(<key>=key, defaults=...)]: [fresh] is the
    instance built from the key, the [defaults] and the field
    defaults of the model. *)
Definition get_or_create (key : string) (fresh : Row) : M (Row * bool) :=
  bind (query (EvGetOrCreate key)) (fun _ => fun db =>
    match rows db !! key with
    | Some r => (Return (r, false), db)
    | None =>
        let r := auto_now (clock db) fresh in
        bind (set_rows (insert key r)) (fun _ => ret (r, true)) db
    end).

(** [Manager.get(<key>=key)] *)
Definition get (key : string) : M Row :=
  bind (query (EvGet key)) (fun _ => fun db =>
    match rows db !! key with
    | Some r => (Return r, db)
    | None => (Raise DoesNotExist, db)
    end).

(** [instance.save()] *)
Definition save (r : Row) : M unit :=
  bind (query (EvSave (pk r))) (fun _ =>
  bind datetime_now (fun now =>
  set_rows (insert (pk r) (auto_now now r)))).

(** [transaction.rollback_unless_managed()]: one more call to the
    backend, which can fail like any other.  Every write above has
    either gone through whole or not at all, so there is nothing to
    undo in the table. *)
Definition rolled_back (db : DB) : DB := sent EvRollback db.

Definition rollback_unless_managed : M unit := query EvRollback.

(** A [QuerySet] is lazy: [filter] only records the condition. *)
Record QuerySet : Type := mkQuerySet { date_done__lt : Z }.

Definition filter_date_done__lt (cutoff : Z) : M QuerySet :=
  ret (mkQuerySet cutoff).

Definition matches (q : QuerySet) (r : Row) : Prop :=
  date_done_of r < date_done__lt q.

#[global] Instance matches_dec q r : Decision (matches q r).
Proof. unfold matches. apply _. Defined.

(** Iterating a [QuerySet] runs the SELECT. *)
Definition qs_list (q : QuerySet) : M (list Row) :=
  bind (query (EvSelect (date_done__lt q))) (fun _ => fun db =>
    (Return (filter (matches q) (snd <$> map_to_list (rows db))), db)).

(** [QuerySet.delete()] *)
Definition qs_delete (q : QuerySet) : M unit :=
  bind (query (EvDelete (date_done__lt q))) (fun _ =>
  set_rows (filter (fun kr => ¬ matches q kr.2))).

End Connection.

Arguments DB Row : clear implicits.
Arguments M Row A : clear implicits.
Arguments QuerySet : clear implicits.

Declare Scope db_scope.
Delimit Scope db_scope with db.
Notation "x <~ m ;; k" := (bind m (fun x => k))
  (at level 100, m at next level, right associativity) : db_scope.
Notation "m ;;; k" := (bind m (fun _ => k))
  (at level 100, right associativity) : db_scope.

Local Open Scope db_scope.

(** ** The models *)

(** Modelled from the spec: [celery/models.py], which declares the two
    tables, is not part of the examined source.  A task result has a
    unique [task_id], a [status] code, an opaque [result], an optional
    [traceback] and the [date_done] timestamp of its last write; a
    taskset result has a unique [taskset_id], an opaque [result] and
    [date_done].  Opaque payloads are kept in their serialized form. *)
Record Task : Type := mkTask {
  task_id : string;
  status : string;
  result : string;
  traceback : option string;
  date_done : Z
}.

(** Modelled from the spec: the taskset table of [celery/models.py],
    as described above. *)
Record TaskSet : Type := mkTaskSet {
  taskset_id : string;
  ts_result : string;
  ts_date_done : Z
}.

#[export] Instance Task_Model : Model Task := {
  pk := task_id;
  date_done_of := date_done;
  auto_now now t := mkTask (task_id t) (status t) (result t) (traceback t) now
}.

#[export] Instance TaskSet_Model : Model TaskSet := {
  pk := taskset_id;
  date_done_of := ts_date_done;
  auto_now now t := mkTaskSet (taskset_id t) (ts_result t) now
}.

(** Attribute assignment on a model instance. *)
Definition set_status (v : string) (t : Task) : Task :=
  mkTask (task_id t) v (result t) (traceback t) (date_done t).
Definition set_result (v : string) (t : Task) : Task :=
  mkTask (task_id t) (status t) v (traceback t) (date_done t).
Definition set_traceback (v : option string) (t : Task) : Task :=
  mkTask (task_id t) (status t) (result t) v (date_done t).
Definition set_ts_result (v : string) (t : TaskSet) : TaskSet :=
  mkTaskSet (taskset_id t) v (ts_date_done t).

(** ** The managers *)

(** *** [class TaskManager(models.Manager)] *)

Module TaskManager.
Section TaskManager.

(** [celery.conf.TASK_RESULT_EXPIRES], a [timedelta]; and the field
    defaults of the task model, which [get_or_create] uses for the
    columns its caller gives no value for.  Neither the setting nor
    the model declaration is in the examined source. *)
Variable TASK_RESULT_EXPIRES : Z.
Variable default_status : string.
Variable default_result : string.
Variable default_traceback : option string.

(** [Task(task_id=task_id, **defaults)], before it is saved: a column
    that [defaults] leaves out takes the default of its field. *)
Definition Task_new (task_id : string) (status result : option string)
    (traceback : option (option string)) : Task :=
  mkTask task_id (default default_status status)
    (default default_result result)
    (default default_traceback traceback) 0.

(** [def get_task(self, task_id, exception_retry_count=1)].  The
    [return task] that follows the [try] statement cannot raise, so
    it is written at the end of the [try] body. *)
Equations? get_task (task_id : string) (exception_retry_count : Z)
    : M Task Task by wf (Z.to_nat exception_retry_count) lt :=
  get_task task_id exception_retry_count :=
    try_except
      (tc <~ get_or_create task_id (Task_new task_id None None None) ;;
       let '(task, created) := tc in
       ret task)
      is_Exception
      (fun exc =>
         match Z_gt_dec exception_retry_count 0 with
         | left _ =>
             rollback_unless_managed ;;;
             get_task task_id (exception_retry_count - 1)
         | right _ => raise exc
         end).
Proof. lia. Qed.

(** The value of the keyword when the caller leaves it out. *)
Definition get_task_exception_retry_count : Z := 1.

Definition get_task_kw (task_id : string)
    (exception_retry_count : option Z) : M Task Task :=
  get_task task_id
    (default get_task_exception_retry_count exception_retry_count).

(** [def is_successful(self, task_id)] *)
Definition is_successful (task_id : string) : M Task bool :=
  task <~ get_task_kw task_id None ;;
  ret (bool_decide (status task = "SUCCESS")).

(** [def get_all_expired(self)] *)
Definition get_all_expired : M Task QuerySet :=
  now <~ datetime_now ;;
  cutoff <~ datetime_sub now TASK_RESULT_EXPIRES ;;
  filter_date_done__lt cutoff.

(** [def delete_expired(self)] *)
Definition delete_expired : M Task unit :=
  expired <~ get_all_expired ;;
  qs_delete expired.

(** [def store_result(self, task_id, result, status, traceback=None,
    exception_retry_count=2)] *)
Equations? store_result (task_id result status : string)
    (traceback : option string) (exception_retry_count : Z)
    : M Task unit by wf (Z.to_nat exception_retry_count) lt :=
  store_result task_id result status traceback exception_retry_count :=
    try_except
      (tc <~ get_or_create task_id
               (Task_new task_id (Some status) (Some result)
                  (Some traceback)) ;;
       let '(task, created) := tc in
       if negb created then
         let task := set_status status task in
         let task := set_result result task in
         let task := set_traceback traceback task in
         save task
       else ret tt)
      is_Exception
      (fun exc =>
         match Z_gt_dec exception_retry_count 0 with
         | left _ =>
             rollback_unless_managed ;;;
             store_result task_id result status traceback
               (exception_retry_count - 1)
         | right _ => raise exc
         end).
Proof. lia. Qed.

Definition store_result_traceback : option string := None.
Definition store_result_exception_retry_count : Z := 2.

Definition store_result_kw (task_id result status : string)
    (traceback : option (option string))
    (exception_retry_count : option Z) : M Task unit :=
  store_result task_id result status
    (default store_result_traceback traceback)
    (default store_result_exception_retry_count exception_retry_count).

End TaskManager.
End TaskManager.

(** *** [class TaskSetManager(models.Manager)] *)

Module TaskSetManager.
Section TaskSetManager.

Variable TASK_RESULT_EXPIRES : Z.

(** [TaskSet(taskset_id=taskset_id, **defaults)], before it is saved. *)
Definition TaskSet_new (taskset_id result : string) : TaskSet :=
  mkTaskSet taskset_id result 0.

(** [def get_all_expired(self)] *)
Definition get_all_expired : M TaskSet QuerySet :=
  now <~ datetime_now ;;
  cutoff <~ datetime_sub now TASK_RESULT_EXPIRES ;;
  filter_date_done__lt cutoff.

(** [def delete_expired(self)] *)
Definition delete_expired : M TaskSet unit :=
  expired <~ get_all_expired ;;
  qs_delete expired.

(** [def get_taskset(self, taskset_id)] *)
Definition get_taskset (taskset_id : string) : M TaskSet (option TaskSet) :=
  try_except
    (taskset <~ get taskset_id ;;
     ret (Some taskset))
    is_DoesNotExist
    (fun _ => ret None).

(** The body of the [try] statement of [store_result]: one attempt. *)
Definition store_result_try (taskset_id result : string)
    : M TaskSet unit :=
  tc <~ get_or_create taskset_id (TaskSet_new taskset_id result) ;;
  let '(taskset, created) := tc in
  if negb created then
    let taskset := set_ts_result result taskset in
    save taskset
  else ret tt.

#[local] Obligation Tactic := idtac.

(** [def store_result(self, taskset_id, result, exception_retry=True)] *)
Equations? store_result (taskset_id result : string)
    (exception_retry : bool)
    : M TaskSet unit by wf (Nat.b2n exception_retry) lt :=
  store_result taskset_id result exception_retry :=
    try_except
      (store_result_try taskset_id result)
      is_Exception
      (fun exc =>
         match bool_dec exception_retry true with
         | left _ =>
             rollback_unless_managed ;;;
             store_result taskset_id result false
         | right _ => raise exc
         end).
Proof. rewrite e. simpl. lia. Qed.

Definition store_result_exception_retry : bool := true.

Definition store_result_kw (taskset_id result : string)
    (exception_retry : option bool) : M TaskSet unit :=
  store_result taskset_id result
    (default store_result_exception_retry exception_retry).

End TaskSetManager.
End TaskSetManager.

(** ** Observations on a run *)

(** The table invariant: a row is filed under its own unique key. *)
Definition table_ok {Row} `{Model Row} (db : DB Row) : Prop :=
  forall k r, rows db !! k = Some r -> pk r = k.

(** Every manager method opens an attempt with one [get_or_create]
    call, so the attempts of a run are the [get_or_create] calls in its
    log; the rollbacks are counted likewise. *)
Fixpoint attempts (l : list Event) : nat :=
  match l with
  | [] => 0
  | EvGetOrCreate _ :: l' => S (attempts l')
  | _ :: l' => attempts l'
  end.

Fixpoint rollbacks (l : list Event) : nat :=
  match l with
  | [] => 0
  | EvRollback :: l' => S (rollbacks l')
  | _ :: l' => rollbacks l'
  end.

(** The backend answers every query it is sent from now on. *)
Definition healthy {Row} (db : DB Row) : Prop :=
  Forall (fun f => f = None) (faults db).

(** The classification of backend errors the specification uses: a
    transient conflict is a duplicate identity on create or a
    transaction left unusable; every other error is permanent. *)
Definition is_transient (e : DbError) : bool :=
  match err_class e with
  | IntegrityError | DatabaseError => true
  | OperationalError => false
  end.

(** The row [TaskManager.store_result] leaves under [task_id] when it
    succeeds at time [now]. *)
Definition stored (task_id result status : string)
    (traceback : option string) (now : Z) : Task :=
  mkTask task_id status result traceback now.

(** How a run of [TaskManager.store_result] from [db] may end: with the
    payload filed under [task_id], or with one of the backend's errors
    and the table as it was. *)
Definition store_result_post (task_id result status : string)
    (traceback : option string) (db : DB Task)
    (out : Outcome unit) (db' : DB Task) : Prop :=
  clock db' = clock db /\
  match out with
  | Return _ =>
      rows db' =
      <[task_id := stored task_id result status traceback (clock db)]>
        (rows db)
  | Raise e =>
      rows db' = rows db /\
      exists d, e = BackendError d /\ Some d ∈ faults db
  end.

(** How one attempt of a write can fail: the backend refuses the
    [get_or_create], or it answers it and refuses the [save] that
    follows (which is only sent when the row was already there). *)
Inductive AttemptFailure : Type :=
| AtGetOrCreate (e : DbError)
| AtSave (e : DbError).

Definition failure_error (f : AttemptFailure) : DbError :=
  match f with
  | AtGetOrCreate e => e
  | AtSave e => e
  end.

Definition fails_at_save (f : AttemptFailure) : bool :=
  match f with
  | AtGetOrCreate _ => false
  | AtSave _ => true
  end.

(** The answers of the backend to the queries of an attempt that fails
    as [f] says. *)
Definition failure_answers (f : AttemptFailure) : list (option DbError) :=
  match f with
  | AtGetOrCreate e => [Some e]
  | AtSave e => [None; Some e]
  end.

(** The answers of the backend during attempts that fail as [fs] says,
    each followed by a rollback that returns. *)
Fixpoint retried_answers (fs : list AttemptFailure)
    : list (option DbError) :=
  match fs with
  | [] => []
  | f :: fs' => failure_answers f ++ None :: retried_answers fs'
  end.

(** The same, followed by a last attempt that fails as [f] says. *)
Definition exhausting_answers (fs : list AttemptFailure)
    (f : AttemptFailure) : list (option DbError) :=
  retried_answers fs ++ failure_answers f.

(** The contract of the expiry sweep of a manager, on a connection
    whose backend answers the next query and at a time when
    [clock - ttl] is a [datetime]: the query set is built without
    touching the connection, listing it gives exactly the rows older
    than [clock - ttl], and deleting removes those rows and leaves
    every other row as it is. *)
Definition expiry_contract {Row} `{Model Row}
    (get_all_expired : M Row QuerySet) (delete_expired : M Row unit)
    (ttl : Z) (db : DB Row) : Prop :=
  exists q l db1 db2,
    get_all_expired db = (Return q, db) /\
    qs_list q db = (Return l, db1) /\
    (forall r, r ∈ l <->
       (exists k, rows db !! k = Some r) /\ date_done_of r < clock db - ttl) /\
    delete_expired db = (Return tt, db2) /\
    (forall k,
       rows db2 !! k =
       match rows db !! k with
       | Some r =>
           if decide (date_done_of r < clock db - ttl) then None else Some r
       | None => None
       end).

(** The propagation policy in the words of the specification: a
    backend error that is not a transient conflict, raised by the first
    query of [get_task] or of [store_result], reaches the caller at once
    and unchanged; no rollback, no further attempt. *)
Definition permanent_errors_propagate : Prop :=
  forall (default_status default_result : string)
    (default_traceback : option string)
    (task_id result status : string) (traceback : option string)
    (n : Z) (db : DB Task) (e : DbError),
    next_fault db = Some e ->
    is_transient e = false ->
    TaskManager.get_task default_status default_result default_traceback
      task_id n db =
      (Raise (BackendError e), sent (EvGetOrCreate task_id) db) /\
    TaskManager.store_result default_status default_result default_traceback
      task_id result status traceback n db =
      (Raise (BackendError e), sent (EvGetOrCreate task_id) db).

(** Sample data for the concrete runs below. *)
Definition conflict : DbError :=
  mkDbError IntegrityError "duplicate key value violates unique constraint".

Definition outage : DbError :=
  mkDbError OperationalError "server closed the connection unexpectedly".

Definition empty_db {Row} (now : Z) (answers : list (option DbError))
    : DB Row :=
  mkDB ∅ now answers [].

Definition failed_task : Task :=
  mkTask "t1" "FAILURE" "KeyError" (Some "Traceback (most recent call last)") 40.

Definition fresh_task : Task :=
  mkTask "t2" "SUCCESS" "42" None 990.

(** Two records at time 1000: [failed_task] was written 960 ago,
    [fresh_task] 10 ago. *)
Definition two_task_db : DB Task :=
  mkDB (<[ "t2" := fresh_task ]> {[ "t1" := failed_task ]}) 1000 [] [].

Definition one_task_db (now : Z) (answers : list (option DbError))
    : DB Task :=
  mkDB {[ "t1" := failed_task ]} now answers [].

(** ** Facts about the connection *)

Lemma attempts_app l1 l2 : attempts (l1 ++ l2) = (attempts l1 + attempts l2)%nat.
Proof.
  induction l1 as [|ev l1 IH]; simpl; [reflexivity|].
  destruct ev; simpl; rewrite IH; reflexivity.
Qed.

Lemma rollbacks_app l1 l2 :
  rollbacks (l1 ++ l2) = (rollbacks l1 + rollbacks l2)%nat.
Proof.
  induction l1 as [|ev l1 IH]; simpl; [reflexivity|].
  destruct ev; simpl; rewrite IH; reflexivity.
Qed.

Section ConnectionFacts.
Context {Row : Type} `{Model Row}.
Implicit Types (db : DB Row) (key : string) (fresh : Row).

Lemma next_fault_healthy db : healthy db -> next_fault db = None.
Proof.
  unfold healthy, next_fault. destruct (faults db) as [|[e|] fs]; auto.
  intros Hh. inversion Hh; discriminate.
Qed.

Lemma healthy_sent ev db : healthy db -> healthy (sent ev db).
Proof.
  unfold healthy, sent; simpl. destruct (faults db); simpl; auto.
  intros Hh. inversion Hh; assumption.
Qed.

Lemma next_fault_Some db e :
  next_fault db = Some e -> Some e ∈ faults db.
Proof.
  unfold next_fault. destruct (faults db) as [|[e'|] fs]; try discriminate.
  intros [= ->]. left.
Qed.

Lemma faults_sent ev db f : f ∈ faults (sent ev db) -> f ∈ faults db.
Proof.
  unfold sent; simpl. destruct (faults db); simpl; auto. right; assumption.
Qed.

(** What [get_or_create] does, by cases on the backend's answer and
    on the presence of the key. *)
Lemma get_or_create_run key fresh db :
  get_or_create key fresh db =
  match next_fault db with
  | Some e => (Raise (BackendError e), sent (EvGetOrCreate key) db)
  | None =>
      match rows db !! key with
      | Some r => (Return (r, false), sent (EvGetOrCreate key) db)
      | None =>
          (Return (auto_now (clock db) fresh, true),
           mkDB (<[key := auto_now (clock db) fresh]> (rows db))
             (clock db) (tail (faults db))
             (log db ++ [EvGetOrCreate key]))
      end
  end.
Proof.
  unfold get_or_create, bind, query.
  destruct (next_fault db); [reflexivity|].
  simpl. destruct (rows db !! key); reflexivity.
Qed.

Lemma save_run (r : Row) db :
  save r db =
  match next_fault db with
  | Some e => (Raise (BackendError e), sent (EvSave (pk r)) db)
  | None =>
      (Return tt,
       mkDB (<[pk r := auto_now (clock db) r]> (rows db))
         (clock db) (tail (faults db)) (log db ++ [EvSave (pk r)]))
  end.
Proof.
  unfold save, bind, query. destruct (next_fault db); reflexivity.
Qed.

Lemma get_run key db :
  get key db =
  match next_fault db with
  | Some e => (Raise (BackendError e), sent (EvGet key) db)
  | None =>
      match rows db !! key with
      | Some r => (Return r, sent (EvGet key) db)
      | None => (Raise DoesNotExist, sent (EvGet key) db)
      end
  end.
Proof.
  unfold get, bind, query. destruct (next_fault db); reflexivity.
Qed.

(** The invariant survives an insertion under the row's own key. *)
Lemma table_ok_insert db (r : Row) db' :
  table_ok db -> rows db' = <[pk r := r]> (rows db) -> table_ok db'.
Proof.
  intros Hok Hr k r' Hk. rewrite Hr in Hk.
  destruct (decide (pk r = k)) as [<-|Hne].
  - rewrite lookup_insert_eq in Hk. congruence.
  - rewrite lookup_insert_ne in Hk by assumption. eauto.
Qed.

Lemma table_ok_same db db' :
  table_ok db -> rows db' = rows db -> table_ok db'.
Proof. intros Hok Hr k r Hk. rewrite Hr in Hk. eauto. Qed.

(** Listing a query set: exactly the stored rows that match. *)
Lemma qs_list_run (q : QuerySet) db :
  next_fault db = None ->
  exists l, qs_list q db = (Return l, sent (EvSelect (date_done__lt q)) db) /\
    forall r, r ∈ l <->
      (exists k, rows db !! k = Some r) /\ date_done_of r < date_done__lt q.
Proof.
  intros Hnf. unfold qs_list, bind, query. rewrite Hnf. simpl.
  eexists; split; [reflexivity|].
  intros r. rewrite list_elem_of_filter, list_elem_of_fmap.
  unfold matches. split.
  - intros [Hlt [[k r'] [-> Hin]]]. apply elem_of_map_to_list in Hin.
    split; [exists k; exact Hin | exact Hlt].
  - intros [[k Hk] Hlt]. split; [exact Hlt|].
    exists (k, r). split; [reflexivity|]. apply elem_of_map_to_list. exact Hk.
Qed.

(** Deleting a query set: the matching rows go, the others stay as
    they are; when the backend refuses, nothing is deleted. *)
Lemma qs_delete_run (q : QuerySet) db :
  match next_fault db with
  | None =>
      exists db', qs_delete q db = (Return tt, db') /\
        forall k,
          rows db' !! k =
          match rows db !! k with
          | Some r =>
              if decide (date_done_of r < date_done__lt q) then None
              else Some r
          | None => None
          end
  | Some e =>
      exists db', qs_delete q db = (Raise (BackendError e), db') /\
        rows db' = rows db
  end.
Proof.
  unfold qs_delete, bind, query.
  destruct (next_fault db) as [e|]; simpl.
  - eexists; split; reflexivity.
  - eexists; split; [reflexivity|]. simpl. intros k.
    rewrite map_lookup_filter. destruct (rows db !! k) as [r|]; simpl; [|reflexivity].
    unfold matches. destruct (decide (date_done_of r < date_done__lt q)).
    + rewrite option_guard_False; [reflexivity|]. simpl. tauto.
    + rewrite option_guard_True; [reflexivity|]. simpl. assumption.
Qed.

(** A rollback followed by [k]: the rollback is one backend call. *)
Lemma rollback_then {A} (k : M Row A) db :
  bind rollback_unless_managed (fun _ => k) db =
  match next_fault db with
  | Some e => (Raise (BackendError e), rolled_back db)
  | None => k (rolled_back db)
  end.
Proof.
  unfold bind, rollback_unless_managed, query, rolled_back.
  destruct (next_fault db); reflexivity.
Qed.

Lemma next_fault_cons db a l :
  faults db = a :: l -> next_fault db = a.
Proof.
  unfold next_fault. intros ->. destruct a; reflexivity.
Qed.

Lemma faults_sent_cons ev db a l :
  faults db = a :: l -> faults (sent ev db) = l.
Proof. unfold sent; simpl. intros ->. reflexivity. Qed.

Lemma next_fault_lookup db :
  (forall e, faults db !! 0%nat <> Some (Some e)) -> next_fault db = None.
Proof.
  unfold next_fault. intros Hans.
  destruct (faults db) as [|[e|] l]; try reflexivity.
  exfalso. apply (Hans e). reflexivity.
Qed.

Lemma lookup_faults_sent ev db i :
  faults (sent ev db) !! i = faults db !! S i.
Proof. unfold sent; simpl. apply lookup_tail. Qed.

End ConnectionFacts.

(** ** Facts about [TaskManager] *)

Section TaskManagerFacts.
Variable default_status : string.
Variable default_result : string.
Variable default_traceback : option string.

Local Abbreviation get_task :=
  (TaskManager.get_task default_status default_result default_traceback).
Local Abbreviation store_result :=
  (TaskManager.store_result default_status default_result default_traceback).
Local Abbreviation Task_new :=
  (TaskManager.Task_new default_status default_result default_traceback).

Implicit Types (db : DB Task) (task_id : string) (n : Z).

(** One attempt of [get_task], and what follows it: after a refused
    [get_or_create] and with budget left, the rollback, which either
    raises or is followed by the call with the budget less one. *)
Lemma get_task_step task_id n db :
  get_task task_id n db =
  match next_fault db with
  | Some e =>
      if decide (n > 0)
      then
        match next_fault (sent (EvGetOrCreate task_id) db) with
        | Some e' =>
            (Raise (BackendError e'),
             rolled_back (sent (EvGetOrCreate task_id) db))
        | None =>
            get_task task_id (n - 1)
              (rolled_back (sent (EvGetOrCreate task_id) db))
        end
      else (Raise (BackendError e), sent (EvGetOrCreate task_id) db)
  | None =>
      match rows db !! task_id with
      | Some t => (Return t, sent (EvGetOrCreate task_id) db)
      | None =>
          let t := auto_now (clock db) (Task_new task_id None None None) in
          (Return t,
           mkDB (<[task_id := t]> (rows db)) (clock db)
             (tail (faults db)) (log db ++ [EvGetOrCreate task_id]))
      end
  end.
Proof.
  rewrite TaskManager.get_task_equation_1.
  unfold try_except. unfold bind at 1. rewrite get_or_create_run.
  destruct (next_fault db) as [e|].
  - simpl. destruct (Z_gt_dec n 0), (decide (n > 0)); try lia;
      [|reflexivity].
    rewrite rollback_then.
    destruct (next_fault (sent (EvGetOrCreate task_id) db)); reflexivity.
  - destruct (rows db !! task_id); reflexivity.
Qed.

(** One attempt of [store_result], and what follows it. *)
Lemma store_result_step task_id result status traceback n db :
  let retry e db1 :=
    if decide (n > 0)
    then
      match next_fault db1 with
      | Some e' => (Raise (BackendError e'), rolled_back db1)
      | None =>
          store_result task_id result status traceback (n - 1)
            (rolled_back db1)
      end
    else (Raise (BackendError e), db1) in
  let db1 := sent (EvGetOrCreate task_id) db in
  store_result task_id result status traceback n db =
  match next_fault db with
  | Some e => retry e db1
  | None =>
      match rows db !! task_id with
      | None =>
          (Return tt,
           mkDB (<[task_id := stored task_id result status traceback
                                (clock db)]> (rows db))
             (clock db) (tail (faults db))
             (log db ++ [EvGetOrCreate task_id]))
      | Some t =>
          match next_fault db1 with
          | Some e => retry e (sent (EvSave (pk t)) db1)
          | None =>
              (Return tt,
               mkDB (<[pk t := stored (pk t) result status
                                 traceback (clock db)]> (rows db))
                 (clock db) (tail (faults db1))
                 (log db1 ++ [EvSave (pk t)]))
          end
      end
  end.
Proof.
  intros retry db1. subst retry db1.
  rewrite TaskManager.store_result_equation_1.
  unfold try_except. unfold bind at 1. rewrite get_or_create_run.
  destruct (next_fault db) as [e|].
  - simpl. destruct (Z_gt_dec n 0), (decide (n > 0)); try lia;
      [|reflexivity].
    rewrite rollback_then.
    destruct (next_fault (sent (EvGetOrCreate task_id) db)); reflexivity.
  - destruct (rows db !! task_id) as [t|]; [|reflexivity].
    cbn [negb]. rewrite save_run.
    destruct (next_fault (sent (EvGetOrCreate task_id) db)) as [e|].
    + simpl. destruct (Z_gt_dec n 0), (decide (n > 0)); try lia;
        [|reflexivity].
      rewrite rollback_then.
      destruct (next_fault
                  (sent (EvSave (pk t))
                     (sent (EvGetOrCreate task_id) db))); reflexivity.
    + reflexivity.
Qed.

End TaskManagerFacts.

Section TaskManagerRuns.
Variable default_status : string.
Variable default_result : string.
Variable default_traceback : option string.

Local Abbreviation get_task :=
  (TaskManager.get_task default_status default_result default_traceback).
Local Abbreviation store_result :=
  (TaskManager.store_result default_status default_result default_traceback).
Local Abbreviation Task_new :=
  (TaskManager.Task_new default_status default_result default_traceback).

Implicit Types (db : DB Task) (task_id : string) (n : Z).

(** Whatever the budget and whatever the backend does, [get_task]
    either returns the row filed under [task_id] (the one that was
    there, or the one it has just created) or raises one of the
    backend's errors with the table untouched. *)
Lemma get_task_spec task_id n db :
  exists out db', get_task task_id n db = (out, db') /\
    clock db' = clock db /\
    match out with
    | Return t =>
        match rows db !! task_id with
        | Some t0 => t = t0 /\ rows db' = rows db
        | None =>
            t = auto_now (clock db) (Task_new task_id None None None) /\
            rows db' = <[task_id := t]> (rows db)
        end
    | Raise e =>
        rows db' = rows db /\
        exists d, e = BackendError d /\ Some d ∈ faults db
    end.
Proof.
  remember (Z.to_nat n) as k eqn:Hk. revert n db Hk.
  induction k as [|k IH]; intros n db Hk; rewrite get_task_step.
  - destruct (next_fault db) as [e|] eqn:Hnf.
    + destruct (decide (n > 0)); [lia|].
      eexists _, _. split; [reflexivity|]. simpl.
      split; [reflexivity|]. split; [reflexivity|].
      exists e. split; [reflexivity|].
      apply next_fault_Some; assumption.
    + destruct (rows db !! task_id) as [t|] eqn:Hl;
        eexists _, _; (split; [reflexivity|]); simpl; rewrite ?Hl; auto.
  - destruct (next_fault db) as [e|] eqn:Hnf.
    + destruct (decide (n > 0)); [|lia].
      destruct (next_fault (sent (EvGetOrCreate task_id) db))
        as [e'|] eqn:Hnf1.
      * eexists _, _. split; [reflexivity|]. simpl.
        split; [reflexivity|]. split; [reflexivity|].
        exists e'. split; [reflexivity|].
        apply (faults_sent (EvGetOrCreate task_id)), next_fault_Some.
        exact Hnf1.
      * destruct (IH (n - 1)
                    (rolled_back (sent (EvGetOrCreate task_id) db)))
          as (out & db' & Hrun & Hclock & Hout); [lia|].
        exists out, db'. split; [exact Hrun|]. split; [exact Hclock|].
        simpl in Hout. destruct out as [t|e'].
        -- exact Hout.
        -- destruct Hout as [Hrows (d & -> & Hin)]. split; [exact Hrows|].
           exists d. split; [reflexivity|].
           apply (faults_sent (EvGetOrCreate task_id)).
           apply (faults_sent EvRollback). exact Hin.
    + destruct (rows db !! task_id) as [t|] eqn:Hl;
        eexists _, _; (split; [reflexivity|]); simpl; rewrite ?Hl; auto.
Qed.

(** When the backend answers the first query, the first attempt of
    [get_task] is the only one. *)
Lemma get_task_answered task_id n db :
  next_fault db = None ->
  exists t db', get_task task_id n db = (Return t, db').
Proof.
  intros Hnf. rewrite get_task_step, Hnf.
  destruct (rows db !! task_id); eexists _, _; reflexivity.
Qed.

(** A run that starts later, on the same table and clock and with
    some of the pending backend answers used up, ends in a way the
    earlier start allows too. *)
Lemma store_result_post_later task_id result status traceback db db1 out db' :
  rows db1 = rows db -> clock db1 = clock db ->
  (forall f, f ∈ faults db1 -> f ∈ faults db) ->
  store_result_post task_id result status traceback db1 out db' ->
  store_result_post task_id result status traceback db out db'.
Proof.
  intros Hr Hc Hf [Hclock Hout]. split; [congruence|].
  destruct out as [u|e].
  - rewrite Hout, Hr, Hc. reflexivity.
  - destruct Hout as [Hrows (d & -> & Hin)]. split; [congruence|].
    exists d. auto.
Qed.

(** The same for [store_result]: on success the row under [task_id]
    is exactly the payload of this call, stamped with the current
    time; on failure the table is untouched. *)
Lemma store_result_spec task_id result status traceback n db :
  table_ok db ->
  exists out db',
    store_result task_id result status traceback n db = (out, db') /\
    store_result_post task_id result status traceback db out db'.
Proof.
  remember (Z.to_nat n) as k eqn:Hk. revert n db Hk.
  assert (Hraise : forall db (e : DbError) (db1 : DB Task),
    rows db1 = rows db -> clock db1 = clock db -> Some e ∈ faults db ->
    exists out db',
      (Raise (BackendError e) : Outcome unit, db1) = (out, db') /\
      store_result_post task_id result status traceback db out db').
  { intros db e db1 Hr Hc Hin. eexists _, _. split; [reflexivity|].
    split; [exact Hc|]. split; [exact Hr|]. exists e. auto. }
  induction k as [|k IH]; intros n db Hk Hok;
    pose proof (store_result_step default_status default_result
                  default_traceback task_id result status traceback n db)
      as Hstep; cbv zeta in Hstep; rewrite Hstep; clear Hstep.
  - destruct (next_fault db) as [e|] eqn:Hnf.
    + destruct (decide (n > 0)); [lia|].
      apply Hraise; auto using next_fault_Some.
    + destruct (rows db !! task_id) as [t|] eqn:Hl.
      * destruct (next_fault (sent (EvGetOrCreate task_id) db))
          as [e|] eqn:Hnf2.
        -- destruct (decide (n > 0)); [lia|].
           apply Hraise; auto.
           apply (faults_sent (EvGetOrCreate task_id)), next_fault_Some.
           exact Hnf2.
        -- rewrite (Hok _ _ Hl).
           eexists _, _. split; [reflexivity|]. split; reflexivity.
      * eexists _, _. split; [reflexivity|]. split; reflexivity.
  - assert (Hrec : forall db1,
      rows db1 = rows db -> clock db1 = clock db ->
      (forall f, f ∈ faults db1 -> f ∈ faults db) ->
      exists out db',
        match next_fault db1 with
        | Some e' => (Raise (BackendError e'), rolled_back db1)
        | None =>
            store_result task_id result status traceback (n - 1)
              (rolled_back db1)
        end = (out, db') /\
        store_result_post task_id result status traceback db out db').
    { intros db1 Hr Hc Hf.
      destruct (next_fault db1) as [e'|] eqn:Hnf1.
      - apply Hraise; auto. apply Hf, next_fault_Some. exact Hnf1.
      - destruct (IH (n - 1) (rolled_back db1))
          as (out & db' & Hrun & Hpost);
          [lia | eapply table_ok_same; [exact Hok | exact Hr] |].
        exists out, db'. split; [exact Hrun|].
        eapply store_result_post_later; [| | | exact Hpost];
          [exact Hr | exact Hc |].
        intros f Hin. apply Hf. apply (faults_sent EvRollback). exact Hin. }
    destruct (next_fault db) as [e|] eqn:Hnf.
    + destruct (decide (n > 0)); [|lia].
      apply Hrec; auto.
      intros f. apply (faults_sent (EvGetOrCreate task_id)).
    + destruct (rows db !! task_id) as [t|] eqn:Hl.
      * destruct (next_fault (sent (EvGetOrCreate task_id) db))
          as [e|] eqn:Hnf2.
        -- destruct (decide (n > 0)); [|lia].
           apply Hrec; auto.
           intros f Hf. apply (faults_sent (EvGetOrCreate task_id)).
           apply (faults_sent (EvSave (pk t))). exact Hf.
        -- rewrite (Hok _ _ Hl).
           eexists _, _. split; [reflexivity|]. split; reflexivity.
      * eexists _, _. split; [reflexivity|]. split; reflexivity.
Qed.

(** With a backend that answers, [store_result] succeeds. *)
Lemma store_result_answered task_id result status traceback n db :
  healthy db ->
  exists db',
    store_result task_id result status traceback n db = (Return tt, db').
Proof.
  intros Hh.
  pose proof (store_result_step default_status default_result
                default_traceback task_id result status traceback n db)
    as Hstep; cbv zeta in Hstep; rewrite Hstep; clear Hstep.
  rewrite (next_fault_healthy db Hh).
  destruct (rows db !! task_id) as [t|]; [|eexists; reflexivity].
  rewrite (next_fault_healthy _ (healthy_sent (EvGetOrCreate task_id) db Hh)).
  eexists; reflexivity.
Qed.

End TaskManagerRuns.

(** ** Facts about [TaskSetManager] *)

Section TaskSetManagerFacts.
Implicit Types (db : DB TaskSet) (taskset_id result : string).

Lemma store_result_try_run taskset_id result db :
  let db1 := sent (EvGetOrCreate taskset_id) db in
  TaskSetManager.store_result_try taskset_id result db =
  match next_fault db with
  | Some e => (Raise (BackendError e), db1)
  | None =>
      match rows db !! taskset_id with
      | None =>
          (Return tt,
           mkDB (<[taskset_id := mkTaskSet taskset_id result (clock db)]>
                   (rows db))
             (clock db) (tail (faults db))
             (log db ++ [EvGetOrCreate taskset_id]))
      | Some t =>
          match next_fault db1 with
          | Some e => (Raise (BackendError e), sent (EvSave (pk t)) db1)
          | None =>
              (Return tt,
               mkDB (<[pk t := mkTaskSet (pk t) result (clock db)]>
                       (rows db))
                 (clock db) (tail (faults db1))
                 (log db1 ++ [EvSave (pk t)]))
          end
      end
  end.
Proof.
  intros db1. subst db1. unfold TaskSetManager.store_result_try.
  unfold bind at 1. rewrite get_or_create_run.
  destruct (next_fault db) as [e|]; [reflexivity|].
  destruct (rows db !! taskset_id) as [t|]; [|reflexivity].
  cbn [negb]. rewrite save_run.
  destruct (next_fault (sent (EvGetOrCreate taskset_id) db)); reflexivity.
Qed.

(** With the flag off, [store_result] is one attempt and no more. *)
Lemma store_result_no_retry taskset_id result db :
  TaskSetManager.store_result taskset_id result false db =
  TaskSetManager.store_result_try taskset_id result db.
Proof.
  rewrite TaskSetManager.store_result_equation_1. unfold try_except.
  destruct (TaskSetManager.store_result_try taskset_id result db)
    as [[u|e] db']; reflexivity.
Qed.

(** With the flag on, a failed attempt is followed by a rollback,
    which either raises or is followed by a call with the flag off. *)
Lemma store_result_retry taskset_id result db :
  TaskSetManager.store_result taskset_id result true db =
  match TaskSetManager.store_result_try taskset_id result db with
  | (Return u, db') => (Return u, db')
  | (Raise e, db1) =>
      match next_fault db1 with
      | Some e' => (Raise (BackendError e'), rolled_back db1)
      | None =>
          TaskSetManager.store_result taskset_id result false
            (rolled_back db1)
      end
  end.
Proof.
  rewrite TaskSetManager.store_result_equation_1. unfold try_except.
  destruct (TaskSetManager.store_result_try taskset_id result db)
    as [[u|e] db']; [reflexivity|].
  simpl. rewrite rollback_then. destruct (next_fault db'); reflexivity.
Qed.

(** One attempt is one [get_or_create] call and no rollback; when it
    fails, the table is as it was. *)
Lemma store_result_try_log taskset_id result db out db' :
  TaskSetManager.store_result_try taskset_id result db = (out, db') ->
  attempts (log db') = S (attempts (log db)) /\
  rollbacks (log db') = rollbacks (log db) /\
  (forall e, out = Raise e -> rows db' = rows db).
Proof.
  pose proof (store_result_try_run taskset_id result db) as Hrun.
  cbv zeta in Hrun. rewrite Hrun. clear Hrun.
  destruct (next_fault db) as [e|].
  - intros [= <- <-]. simpl. rewrite attempts_app, rollbacks_app. simpl.
    repeat split; auto; lia.
  - destruct (rows db !! taskset_id) as [t|].
    + destruct (next_fault (sent (EvGetOrCreate taskset_id) db)) as [e|];
        intros [= <- <-]; simpl; rewrite !attempts_app, !rollbacks_app; simpl;
        (split; [lia|]); (split; [lia|]); intros e'; auto; discriminate.
    + intros [= <- <-]. simpl. rewrite attempts_app, rollbacks_app. simpl.
      (split; [lia|]); (split; [lia|]); intros e'; discriminate.
Qed.

(** A lookup that misses: the backend's error if it has one to give,
    [None] otherwise; the table is not written in either case. *)
Lemma get_taskset_miss taskset_id db :
  rows db !! taskset_id = None ->
  TaskSetManager.get_taskset taskset_id db =
  match next_fault db with
  | Some e => (Raise (BackendError e), sent (EvGet taskset_id) db)
  | None => (Return None, sent (EvGet taskset_id) db)
  end.
Proof.
  intros Hmiss. unfold TaskSetManager.get_taskset, try_except.
  unfold bind at 1. rewrite get_run, Hmiss.
  destruct (next_fault db); reflexivity.
Qed.

End TaskSetManagerFacts.

(** ** Runs in which every attempt fails *)

Section Exhaustion.
Variable default_status : string.
Variable default_result : string.
Variable default_traceback : option string.

Local Abbreviation get_task :=
  (TaskManager.get_task default_status default_result default_traceback).
Local Abbreviation store_result :=
  (TaskManager.store_result default_status default_result default_traceback).

Implicit Types (db : DB Task) (key : string) (n : Z).

(** When every attempt of [store_result] fails, at [get_or_create] or
    at [save], and every rollback in between returns, the call gives up
    after one attempt more than its budget and raises the error of the
    last attempt. *)
Lemma store_result_exhausted key (res st : string) (tb : option string)
    (fs : list AttemptFailure) :
  forall (f : AttemptFailure) (rest : list (option DbError)) n db,
    faults db = (exhausting_answers fs f ++ rest)%list ->
    Forall (fun f' => fails_at_save f' = true -> is_Some (rows db !! key))
      (f :: fs) ->
    n = Z.of_nat (length fs) ->
    exists db',
      store_result key res st tb n db =
      (Raise (BackendError (failure_error f)), db') /\
      rows db' = rows db /\
      attempts (log db') = (attempts (log db) + length fs + 1)%nat /\
      rollbacks (log db') = (rollbacks (log db) + length fs)%nat.
Proof.
  induction fs as [|f0 fs IH]; intros f rest n db Hf Hrow Hn;
    pose proof (store_result_step default_status default_result
                  default_traceback key res st tb n db) as Hstep;
    cbv zeta in Hstep; rewrite Hstep; clear Hstep.
  - unfold exhausting_answers in Hf. simpl in Hf, Hn.
    destruct (decide (n > 0)); [lia|].
    destruct f as [e|e]; simpl in Hf.
    + rewrite (next_fault_cons db _ _ Hf).
      eexists. split; [reflexivity|]. simpl.
      rewrite attempts_app, rollbacks_app. simpl. repeat split; lia.
    + rewrite (next_fault_cons db _ _ Hf).
      apply Forall_cons in Hrow as [Hrow _].
      destruct (Hrow eq_refl) as [t Ht]. rewrite Ht.
      rewrite (next_fault_cons _ _ _
                 (faults_sent_cons (EvGetOrCreate key) db _ _ Hf)).
      eexists. split; [reflexivity|]. simpl.
      rewrite !attempts_app, !rollbacks_app. simpl. repeat split; lia.
  - unfold exhausting_answers in Hf. cbn [retried_answers] in Hf.
    rewrite <- !app_assoc in Hf. cbn [length] in Hn.
    destruct (decide (n > 0)); [|lia].
    assert (Hrow' : forall d : DB Task, rows d = rows db ->
      Forall (fun f' => fails_at_save f' = true -> is_Some (rows d !! key))
        (f :: fs)).
    { intros d Hd. rewrite Hd.
      apply Forall_cons in Hrow as [Hrf Hrow].
      apply Forall_cons in Hrow as [_ Hrow]. apply Forall_cons. auto. }
    destruct f0 as [e0|e0]; simpl in Hf.
    + rewrite (next_fault_cons db _ _ Hf).
      pose proof (faults_sent_cons (EvGetOrCreate key) db _ _ Hf) as Hf1.
      rewrite (next_fault_cons _ _ _ Hf1).
      destruct (IH f rest (n - 1)
                  (rolled_back (sent (EvGetOrCreate key) db)))
        as (db' & Hrun & Hrows & Hatt & Hrb).
      * unfold exhausting_answers. rewrite <- app_assoc.
        exact (faults_sent_cons EvRollback _ _ _ Hf1).
      * apply Hrow'. reflexivity.
      * lia.
      * exists db'. split; [exact Hrun|]. simpl in Hrows, Hatt, Hrb.
        rewrite !attempts_app in Hatt. rewrite !rollbacks_app in Hrb.
        simpl in Hatt, Hrb. cbn [length].
        split; [exact Hrows|]. split; lia.
    + rewrite (next_fault_cons db _ _ Hf).
      apply Forall_cons in Hrow as [Hrf Hrow].
      apply Forall_cons in Hrow as [Hr0 Hrow].
      destruct (Hr0 eq_refl) as [t Ht]. rewrite Ht.
      pose proof (faults_sent_cons (EvGetOrCreate key) db _ _ Hf) as Hf1.
      rewrite (next_fault_cons _ _ _ Hf1).
      pose proof (faults_sent_cons (EvSave (pk t)) _ _ _ Hf1) as Hf2.
      rewrite (next_fault_cons _ _ _ Hf2).
      destruct (IH f rest (n - 1)
                  (rolled_back
                     (sent (EvSave (pk t)) (sent (EvGetOrCreate key) db))))
        as (db' & Hrun & Hrows & Hatt & Hrb).
      * unfold exhausting_answers. rewrite <- app_assoc.
        exact (faults_sent_cons EvRollback _ _ _ Hf2).
      * apply Forall_cons. split; [exact Hrf | exact Hrow].
      * lia.
      * exists db'. split; [exact Hrun|]. simpl in Hrows, Hatt, Hrb.
        rewrite !attempts_app in Hatt. rewrite !rollbacks_app in Hrb.
        simpl in Hatt, Hrb. cbn [length].
        split; [exact Hrows|]. split; lia.
Qed.

(** The same for [get_task], whose attempts can only fail at
    [get_or_create]. *)
Lemma get_task_exhausted key (errs : list DbError) :
  forall (e : DbError) (rest : list (option DbError)) n db,
    faults db =
    (exhausting_answers (AtGetOrCreate <$> errs) (AtGetOrCreate e)
       ++ rest)%list ->
    n = Z.of_nat (length errs) ->
    exists db',
      get_task key n db = (Raise (BackendError e), db') /\
      rows db' = rows db /\
      attempts (log db') = (attempts (log db) + length errs + 1)%nat /\
      rollbacks (log db') = (rollbacks (log db) + length errs)%nat.
Proof.
  induction errs as [|e0 errs IH]; intros e rest n db Hf Hn;
    rewrite get_task_step.
  - unfold exhausting_answers in Hf. simpl in Hf, Hn.
    destruct (decide (n > 0)); [lia|].
    rewrite (next_fault_cons db _ _ Hf).
    eexists. split; [reflexivity|]. simpl.
    rewrite attempts_app, rollbacks_app. simpl. repeat split; lia.
  - unfold exhausting_answers in Hf. cbn [fmap list_fmap retried_answers] in Hf.
    rewrite <- !app_assoc in Hf. simpl in Hf. cbn [length] in Hn.
    destruct (decide (n > 0)); [|lia].
    rewrite (next_fault_cons db _ _ Hf).
    pose proof (faults_sent_cons (EvGetOrCreate key) db _ _ Hf) as Hf1.
    rewrite (next_fault_cons _ _ _ Hf1).
    destruct (IH e rest (n - 1) (rolled_back (sent (EvGetOrCreate key) db)))
      as (db' & Hrun & Hrows & Hatt & Hrb).
    + unfold exhausting_answers. rewrite <- app_assoc.
      exact (faults_sent_cons EvRollback _ _ _ Hf1).
    + lia.
    + exists db'. split; [exact Hrun|]. simpl in Hrows, Hatt, Hrb.
      rewrite !attempts_app in Hatt. rewrite !rollbacks_app in Hrb.
      simpl in Hatt, Hrb. cbn [length].
      split; [exact Hrows|]. split; lia.
Qed.

End Exhaustion.

(** ** The properties of the result store *)

(** Claim C1.  [get_task] called without a budget retries once and
    [store_result] called without one retries twice.  For every budget
    [n >= 0], when every one of the [n + 1] attempts fails (for
    [get_task] at its [get_or_create]; for [store_result] at its
    [get_or_create] or, the row being there, at its [save]) and every
    rollback between two attempts returns, both operations make exactly
    [n + 1] attempts, with [n] rollbacks in between, and then raise the
    error of the last attempt as the backend gave it; the table is left
    as it was, so no record has been persisted. *)
Theorem retry_budget_exhausted
    (default_status default_result : string)
    (default_traceback : option string)
    (task_id result status : string) (traceback : option string)
    (n : Z) (errs : list DbError) (e : DbError)
    (fs : list AttemptFailure) (f : AttemptFailure)
    (rest rest' : list (option DbError)) (db dbs : DB Task) :
  0 <= n ->
  length errs = Z.to_nat n ->
  faults db =
  (exhausting_answers (AtGetOrCreate <$> errs) (AtGetOrCreate e)
     ++ rest)%list ->
  length fs = Z.to_nat n ->
  faults dbs = (exhausting_answers fs f ++ rest')%list ->
  Forall (fun f' => fails_at_save f' = true ->
                    is_Some (rows dbs !! task_id)) (f :: fs) ->
  TaskManager.get_task_kw default_status default_result default_traceback
    task_id None =
  TaskManager.get_task default_status default_result default_traceback
    task_id 1 /\
  TaskManager.store_result_kw default_status default_result default_traceback
    task_id result status None None =
  TaskManager.store_result default_status default_result default_traceback
    task_id result status None 2 /\
  (exists db',
     TaskManager.get_task default_status default_result default_traceback
       task_id n db = (Raise (BackendError e), db') /\
     rows db' = rows db /\
     Z.of_nat (attempts (log db')) = Z.of_nat (attempts (log db)) + n + 1 /\
     Z.of_nat (rollbacks (log db')) = Z.of_nat (rollbacks (log db)) + n) /\
  (exists db',
     TaskManager.store_result default_status default_result default_traceback
       task_id result status traceback n dbs =
     (Raise (BackendError (failure_error f)), db') /\
     rows db' = rows dbs /\
     Z.of_nat (attempts (log db')) = Z.of_nat (attempts (log dbs)) + n + 1 /\
     Z.of_nat (rollbacks (log db')) = Z.of_nat (rollbacks (log dbs)) + n).
Proof.
  intros Hn Hlen Hf Hlen' Hf' Hrow.
  split; [reflexivity|]. split; [reflexivity|]. split.
  - destruct (get_task_exhausted default_status default_result
                default_traceback task_id errs e rest n db Hf)
      as (db' & Hrun & Hrows & Hatt & Hrb); [lia|].
    exists db'. split; [exact Hrun|]. split; [exact Hrows|]. lia.
  - destruct (store_result_exhausted default_status default_result
                default_traceback task_id result status traceback fs f rest'
                n dbs Hf' Hrow) as (db' & Hrun & Hrows & Hatt & Hrb); [lia|].
    exists db'. split; [exact Hrun|]. split; [exact Hrows|]. lia.
Qed.

Lemma retry_budget_exhausted_witness :
  exists db',
    TaskManager.store_result "PENDING" "" None "t1" "42" "SUCCESS" None 2
      (one_task_db 100
         [None; Some conflict; None; Some conflict; None;
          None; Some conflict]) =
    (Raise (BackendError conflict), db') /\
    rows db' = {[ "t1" := failed_task ]} /\
    attempts (log db') = 3%nat.
Proof.
  destruct (retry_budget_exhausted "PENDING" "" None "t1" "42" "SUCCESS" None
              2 [conflict; conflict] conflict
              [AtSave conflict; AtGetOrCreate conflict] (AtSave conflict)
              [] []
              (empty_db 100
                 [Some conflict; None; Some conflict; None; Some conflict])
              (one_task_db 100
                 [None; Some conflict; None; Some conflict; None;
                  None; Some conflict]))
    as (_ & _ & _ & db' & Hrun & Hrows & Hatt & _);
    [ lia | reflexivity | reflexivity | reflexivity | reflexivity
    | repeat constructor; intros _; exists failed_task; reflexivity | ].
  exists db'. split; [exact Hrun|]. split; [exact Hrows|].
  simpl in Hatt. lia.
Defined.

(** Claim C2, as the specification words it, fails: an error that is
    not a transient conflict is caught like any other.  Here the
    backend answers the first query of [get_task "t1"] with an outage;
    the call rolls back, tries again and returns the record. *)
Lemma permanent_error_is_retried : ~ permanent_errors_propagate.
Proof.
  intros Hclaim.
  destruct (Hclaim "PENDING" "" None "t1" "42" "SUCCESS" None 1
              (empty_db 100 [Some outage]) outage) as [Hget _];
    [reflexivity | reflexivity |].
  vm_compute in Hget. discriminate Hget.
Qed.

(** Claim C2, amended.  The [except Exception] clauses make no
    difference between backend errors: whatever error [e] the backend
    gives to a query made inside the [try] block ([get_or_create], or
    the [save] of [store_result]), transient or not, it is caught.
    With a positive budget the handler calls the rollback and, when the
    rollback returns, makes a new attempt with the budget less one; an
    error raised by the rollback itself reaches the caller at once.
    With the budget exhausted, [e] reaches the caller unchanged. *)
Theorem every_backend_error_is_retried
    (default_status default_result : string)
    (default_traceback : option string)
    (task_id result status : string) (traceback : option string)
    (n : Z) (db : DB Task) (e : DbError) :
  next_fault db = Some e ->
  let db1 := sent (EvGetOrCreate task_id) db in
  TaskManager.get_task default_status default_result default_traceback
    task_id n db =
  (if decide (n > 0)
   then match next_fault db1 with
        | Some e' => (Raise (BackendError e'), rolled_back db1)
        | None =>
            TaskManager.get_task default_status default_result
              default_traceback task_id (n - 1) (rolled_back db1)
        end
   else (Raise (BackendError e), db1)) /\
  TaskManager.store_result default_status default_result default_traceback
    task_id result status traceback n db =
  (if decide (n > 0)
   then match next_fault db1 with
        | Some e' => (Raise (BackendError e'), rolled_back db1)
        | None =>
            TaskManager.store_result default_status default_result
              default_traceback task_id result status traceback (n - 1)
              (rolled_back db1)
        end
   else (Raise (BackendError e), db1)) /\
  (forall (db0 : DB Task) (t : Task),
     next_fault db0 = None ->
     rows db0 !! task_id = Some t ->
     next_fault (sent (EvGetOrCreate task_id) db0) = Some e ->
     let db2 := sent (EvSave (pk t)) (sent (EvGetOrCreate task_id) db0) in
     TaskManager.store_result default_status default_result default_traceback
       task_id result status traceback n db0 =
     (if decide (n > 0)
      then match next_fault db2 with
           | Some e' => (Raise (BackendError e'), rolled_back db2)
           | None =>
               TaskManager.store_result default_status default_result
                 default_traceback task_id result status traceback (n - 1)
                 (rolled_back db2)
           end
      else (Raise (BackendError e), db2))).
Proof.
  intros Hnf db1. subst db1. split; [|split].
  - rewrite get_task_step, Hnf. reflexivity.
  - pose proof (store_result_step default_status default_result
                  default_traceback task_id result status traceback n db)
      as Hstep. cbv zeta in Hstep. rewrite Hstep, Hnf. reflexivity.
  - intros db0 t Hnf0 Hl Hnf1 db2. subst db2.
    pose proof (store_result_step default_status default_result
                  default_traceback task_id result status traceback n db0)
      as Hstep. cbv zeta in Hstep. rewrite Hstep, Hnf0, Hl, Hnf1. reflexivity.
Qed.

Lemma every_backend_error_is_retried_witness :
  is_transient outage = false /\
  exists t db',
    TaskManager.get_task "PENDING" "" None "t1" 1
      (empty_db 100 [Some outage]) = (Return t, db') /\
    log db' = [EvGetOrCreate "t1"; EvRollback; EvGetOrCreate "t1"].
Proof.
  split; [reflexivity|].
  destruct (every_backend_error_is_retried "PENDING" "" None "t1" "42"
              "SUCCESS" None 1 (empty_db 100 [Some outage]) outage)
    as [Hget _]; [reflexivity|].
  rewrite Hget. vm_compute. eexists _, _. split; reflexivity.
Defined.

Section TaskManagerProperties.
Variable default_status : string.
Variable default_result : string.
Variable default_traceback : option string.

Local Abbreviation get_task :=
  (TaskManager.get_task default_status default_result default_traceback).
Local Abbreviation store_result :=
  (TaskManager.store_result default_status default_result default_traceback).
Local Abbreviation store_result_kw :=
  (TaskManager.store_result_kw default_status default_result
     default_traceback).

Implicit Types (db : DB Task) (n : Z).

(** [get_task] returns as soon as the backend answers the
    [get_or_create] of one of its [n + 1] attempts, provided the
    rollbacks before that attempt return.  Attempt [k] (from 0) makes
    the backend call number [2 * k], and the rollback after it is call
    number [2 * k + 1]. *)
Lemma get_task_returns (key : string) (k : nat) :
  forall n db,
    (k <= Z.to_nat n)%nat ->
    (forall e, faults db !! (2 * k)%nat <> Some (Some e)) ->
    (forall j e, (j < k)%nat ->
                 faults db !! (2 * j + 1)%nat <> Some (Some e)) ->
    exists t db', get_task key n db = (Return t, db').
Proof.
  induction k as [|k IH]; intros n db Hk Hans Hrb.
  - apply get_task_answered. apply next_fault_lookup. exact Hans.
  - destruct (next_fault db) as [e|] eqn:Hnf.
    + rewrite get_task_step, Hnf.
      destruct (decide (n > 0)); [|lia].
      assert (Hnf1 : next_fault (sent (EvGetOrCreate key) db) = None).
      { apply next_fault_lookup. intros e'.
        rewrite lookup_faults_sent. apply (Hrb 0%nat e'). lia. }
      rewrite Hnf1. apply IH; [lia| |].
      * intros e'. unfold rolled_back. rewrite !lookup_faults_sent.
        replace (S (S (2 * k))) with (2 * S k)%nat by lia. apply Hans.
      * intros j e' Hj. unfold rolled_back. rewrite !lookup_faults_sent.
        replace (S (S (2 * j + 1))) with (2 * S j + 1)%nat by lia.
        apply Hrb. lia.
    + apply get_task_answered. exact Hnf.
Qed.

(** Claim C3.  On a well-formed table, [get_task key] ends in one of
    two ways.  Either it returns a record, which has the identity
    [key] and is the row filed under [key] afterwards: the row that
    was there, with the table unchanged, or else a new row with the
    default status, added to the table.  Or it raises an error of the
    backend, with the table unchanged; it has no "not found" outcome,
    [DoesNotExist] included.  And it does return a record as soon as
    the backend answers the [get_or_create] of one of the [n + 1]
    attempts (backend call [2 * k] for attempt [k]) and the rollbacks
    before that attempt (calls [2 * j + 1]) return; for the first
    attempt that is: as soon as the first answer is not an error. *)
Theorem get_task_materializes (key : string) n db :
  table_ok db ->
  exists out db',
    get_task key n db = (out, db') /\
    match out with
    | Return t =>
        task_id t = key /\
        rows db' !! key = Some t /\
        match rows db !! key with
        | Some t0 => t = t0 /\ rows db' = rows db
        | None =>
            status t = default_status /\
            rows db' = <[key := t]> (rows db)
        end
    | Raise e =>
        rows db' = rows db /\ e <> DoesNotExist /\
        exists d, e = BackendError d /\ Some d ∈ faults db
    end /\
    (forall k, (k <= Z.to_nat n)%nat ->
               (forall e, faults db !! (2 * k)%nat <> Some (Some e)) ->
               (forall j e, (j < k)%nat ->
                  faults db !! (2 * j + 1)%nat <> Some (Some e)) ->
               exists t, out = Return t).
Proof.
  intros Hok.
  destruct (get_task_spec default_status default_result default_traceback
              key n db) as (out & db' & Hrun & _ & Hout).
  exists out, db'. split; [exact Hrun|]. split.
  - destruct out as [t|e].
    + destruct (rows db !! key) as [t0|] eqn:Hl.
      * destruct Hout as [-> Hrows].
        split; [exact (Hok _ _ Hl)|]. rewrite Hrows. auto.
      * destruct Hout as [Ht Hrows].
        split; [rewrite Ht; reflexivity|].
        split; [rewrite Hrows; apply lookup_insert_eq|].
        split; [rewrite Ht; reflexivity | exact Hrows].
    + destruct Hout as [Hrows (d & -> & Hin)].
      split; [exact Hrows|]. split; [discriminate|]. exists d. auto.
  - intros k Hk Hans Hrb.
    destruct (get_task_returns key k n db Hk Hans Hrb) as (t & db'' & Hret).
    exists t. congruence.
Qed.

(** A successful [get_task] leaves the record it returns filed under
    the key. *)
Lemma get_task_filed (key : string) n db t db' :
  get_task key n db = (Return t, db') -> rows db' !! key = Some t.
Proof.
  intros Hrun.
  destruct (get_task_spec default_status default_result default_traceback
              key n db) as (out & db'' & Hrun' & _ & Hout).
  rewrite Hrun in Hrun'. injection Hrun' as <- <-.
  destruct (rows db !! key) as [t0|] eqn:Hl.
  - destruct Hout as [-> ->]. exact Hl.
  - destruct Hout as [_ ->]. apply lookup_insert_eq.
Qed.

(** Claim C8.  After a [get_task key] that returned [t1], and with no
    write to the table in between, a second [get_task key] leaves the
    table exactly as it was (no row added, no field changed) whatever
    its outcome, and a record it returns is [t1] itself, so identity
    and status are the same; it does return as soon as the backend
    answers the [get_or_create] of one of the [n2 + 1] attempts and
    the rollbacks before that attempt return. *)
Theorem get_task_twice (key : string) n1 n2 db t1 db1 db1' :
  get_task key n1 db = (Return t1, db1) ->
  rows db1' = rows db1 ->
  exists out db2,
    get_task key n2 db1' = (out, db2) /\
    rows db2 = rows db1 /\
    (forall t2, out = Return t2 ->
       t2 = t1 /\ task_id t2 = task_id t1 /\ status t2 = status t1) /\
    (forall k, (k <= Z.to_nat n2)%nat ->
               (forall e, faults db1' !! (2 * k)%nat <> Some (Some e)) ->
               (forall j e, (j < k)%nat ->
                  faults db1' !! (2 * j + 1)%nat <> Some (Some e)) ->
               out = Return t1).
Proof.
  intros Hfirst Hsame.
  pose proof (get_task_filed key n1 db t1 db1 Hfirst) as Hl.
  rewrite <- Hsame in Hl.
  destruct (get_task_spec default_status default_result default_traceback
              key n2 db1') as (out & db2 & Hrun & _ & Hout).
  rewrite Hl in Hout.
  assert (Hret : forall t2, out = Return t2 -> t2 = t1).
  { intros t2 ->. destruct Hout as [-> _]. reflexivity. }
  exists out, db2. split; [exact Hrun|]. split; [|split].
  - rewrite <- Hsame. destruct out as [t2|e]; [apply Hout|apply Hout].
  - intros t2 Ht2. rewrite (Hret t2 Ht2). auto.
  - intros k Hk Hans Hrb.
    destruct (get_task_returns key k n2 db1' Hk Hans Hrb)
      as (t & db'' & Hr).
    rewrite Hr in Hrun. injection Hrun as <- <-.
    rewrite (Hret t eq_refl). reflexivity.
Qed.

(** A successful [store_result] files its payload under the key and
    keeps the table well formed. *)
Lemma store_result_filed (key result status : string)
    (traceback : option string) n db db' :
  table_ok db ->
  store_result key result status traceback n db = (Return tt, db') ->
  rows db' !! key = Some (stored key result status traceback (clock db)) /\
  table_ok db'.
Proof.
  intros Hok Hrun.
  destruct (store_result_spec default_status default_result
              default_traceback key result status traceback n db Hok)
    as (out & db'' & Hrun' & _ & Hout).
  rewrite Hrun in Hrun'. injection Hrun' as <- <-. split.
  - rewrite Hout. apply lookup_insert_eq.
  - eapply (table_ok_insert db
              (stored key result status traceback (clock db))); eauto.
Qed.

(** Claim C4.  After [store_result key r1 s1 tb1] and then
    [store_result key r2 s2 tb2] have both succeeded, with no other
    write to the table, a record that [get_task key] returns is the
    payload of the second call and nothing else: status [s2], result
    [r2], traceback [tb2], stamped with the time of the second call;
    nothing of [r1], [s1], [tb1] is left.  [get_task] does return as
    soon as the backend answers the [get_or_create] of one of the
    [n3 + 1] attempts and the rollbacks before that attempt return. *)
Theorem store_result_overwrites (key r1 s1 r2 s2 : string)
    (tb1 tb2 : option string) n1 n2 n3 db db1 db1' db2 db2' :
  table_ok db ->
  store_result key r1 s1 tb1 n1 db = (Return tt, db1) ->
  rows db1' = rows db1 ->
  store_result key r2 s2 tb2 n2 db1' = (Return tt, db2) ->
  rows db2' = rows db2 ->
  exists out db3,
    get_task key n3 db2' = (out, db3) /\
    (forall t, out = Return t ->
       t = stored key r2 s2 tb2 (clock db1') /\
       task_id t = key /\ status t = s2 /\ result t = r2 /\
       traceback t = tb2) /\
    (forall k, (k <= Z.to_nat n3)%nat ->
               (forall e, faults db2' !! (2 * k)%nat <> Some (Some e)) ->
               (forall j e, (j < k)%nat ->
                  faults db2' !! (2 * j + 1)%nat <> Some (Some e)) ->
               exists t, out = Return t).
Proof.
  intros Hok Hfirst Hsame1 Hsecond Hsame2.
  destruct (store_result_filed key r1 s1 tb1 n1 db db1 Hok Hfirst)
    as [_ Hok1].
  assert (Hok1' : table_ok db1') by (eapply table_ok_same; eauto).
  destruct (store_result_filed key r2 s2 tb2 n2 db1' db2 Hok1' Hsecond)
    as [Hl2 _].
  rewrite <- Hsame2 in Hl2.
  destruct (get_task_spec default_status default_result default_traceback
              key n3 db2') as (out & db3 & Hrun & _ & Hout).
  rewrite Hl2 in Hout.
  exists out, db3. split; [exact Hrun|]. split.
  - intros t ->. destruct Hout as [-> _]. repeat split.
  - intros k Hk Hans Hrb.
    destruct (get_task_returns key k n3 db2' Hk Hans Hrb)
      as (t & db'' & Hr).
    exists t. congruence.
Qed.

(** Claim C10.  When the record of [key] carries a traceback and
    [store_result] is called for [key] without the [traceback]
    keyword, a successful call leaves under [key] a record whose
    traceback is [None] (and whose status and result are those of
    the call): the earlier traceback is gone.  The call succeeds
    whenever the backend answers. *)
Theorem store_result_clears_traceback (key res st tb : string)
    (budget : option Z) db t0 :
  table_ok db ->
  rows db !! key = Some t0 ->
  traceback t0 = Some tb ->
  exists out db',
    store_result_kw key res st None budget db = (out, db') /\
    (out = Return tt ->
       exists t, rows db' !! key = Some t /\ traceback t = None /\
                 status t = st /\ result t = res) /\
    (healthy db -> out = Return tt).
Proof.
  intros Hok Hl Htb. unfold TaskManager.store_result_kw.
  set (n := default TaskManager.store_result_exception_retry_count budget).
  change (default TaskManager.store_result_traceback None)
    with (@None string).
  destruct (store_result key res st None n db) as [out db'] eqn:Hrun.
  exists out, db'. split; [reflexivity|]. split.
  - intros ->.
    destruct (store_result_filed key res st None n db db' Hok Hrun)
      as [Hfiled _].
    eexists. split; [exact Hfiled|]. repeat split.
  - intros Hh.
    destruct (store_result_answered default_status default_result
                default_traceback key res st None n db Hh)
      as (db'' & Hret).
    congruence.
Qed.

End TaskManagerProperties.

Lemma get_task_materializes_witness :
  exists t db',
    TaskManager.get_task "PENDING" "" None "t2" 1
      (one_task_db 100 [Some conflict; None]) = (Return t, db') /\
    t = mkTask "t2" "PENDING" "" None 100 /\
    rows db' = <["t2" := t]> {[ "t1" := failed_task ]}.
Proof.
  destruct (get_task_materializes "PENDING" "" None "t2" 1
              (one_task_db 100 [Some conflict; None]))
    as (out & db' & Hrun & Hout & _).
  { intros k r. unfold one_task_db; simpl. intros Hk.
    apply lookup_singleton_Some in Hk as [<- <-]. reflexivity. }
  vm_compute in Hrun. injection Hrun as <- <-.
  eexists _, _. split; [vm_compute; reflexivity|].
  split; reflexivity.
Defined.

Lemma get_task_twice_witness :
  let db1 : DB Task :=
    mkDB {[ "t1" := mkTask "t1" "PENDING" "" None 100 ]} 100 []
      [EvGetOrCreate "t1"] in
  let db1' : DB Task := mkDB (rows db1) 250 [Some conflict; None] [] in
  exists db2,
    TaskManager.get_task "PENDING" "" None "t1" 1 db1' =
    (Return (mkTask "t1" "PENDING" "" None 100), db2) /\
    rows db2 = rows db1.
Proof.
  intros db1 db1'.
  destruct (get_task_twice "PENDING" "" None "t1" 1 1 (empty_db 100 [])
              (mkTask "t1" "PENDING" "" None 100) db1 db1')
    as (out & db2 & Hrun & Hrows & _ & Hret);
    [vm_compute; reflexivity | reflexivity |].
  exists db2. split; [|exact Hrows].
  rewrite Hrun. f_equal.
  apply (Hret 1%nat);
    [ simpl; lia | intros e; vm_compute; discriminate | ].
  intros [|j] e Hj; [vm_compute; discriminate | lia].
Defined.

Lemma store_result_overwrites_witness :
  let db1 : DB Task :=
    mkDB {[ "t1" := mkTask "t1" "FAILURE" "KeyError" (Some "tb") 100 ]}
      100 [] [EvGetOrCreate "t1"] in
  let db2 : DB Task :=
    mkDB {[ "t1" := mkTask "t1" "SUCCESS" "42" None 130 ]}
      130 [] [EvGetOrCreate "t1"; EvSave "t1"] in
  exists db3,
    TaskManager.get_task "PENDING" "" None "t1" 1 (mkDB (rows db2) 170 [] []) =
    (Return (mkTask "t1" "SUCCESS" "42" None 130), db3).
Proof.
  intros db1 db2.
  destruct (store_result_overwrites "PENDING" "" None
              "t1" "KeyError" "FAILURE" "42" "SUCCESS" (Some "tb") None
              2 2 1 (empty_db 100 []) db1 (mkDB (rows db1) 130 [] [])
              db2 (mkDB (rows db2) 170 [] []))
    as (out & db3 & Hrun & Hpayload & Hret);
    [ intros k r Hk; vm_compute in Hk; discriminate
    | vm_compute; reflexivity | reflexivity
    | vm_compute; reflexivity | reflexivity | ].
  destruct (Hret 0%nat) as [t Ht];
    [lia | intros e; vm_compute; discriminate | intros j e Hj; lia |].
  subst out. destruct (Hpayload t eq_refl) as [-> _].
  exists db3. exact Hrun.
Defined.

Lemma store_result_clears_traceback_witness :
  exists db' t,
    TaskManager.store_result_kw "PENDING" "" None "t1" "42" "SUCCESS"
      None None (one_task_db 100 []) = (Return tt, db') /\
    traceback failed_task <> None /\
    rows db' !! "t1" = Some t /\ traceback t = None.
Proof.
  destruct (store_result_clears_traceback "PENDING" "" None
              "t1" "42" "SUCCESS" "Traceback (most recent call last)"
              None (one_task_db 100 []) failed_task)
    as (out & db' & Hrun & Hcleared & Hret);
    [ intros k r Hk; unfold one_task_db in Hk; simpl in Hk;
      apply lookup_singleton_Some in Hk as [<- <-]; reflexivity
    | reflexivity | reflexivity | ].
  assert (Hout : out = Return tt) by (apply Hret; constructor).
  destruct (Hcleared Hout) as (t & Hl & Htb & _).
  exists db', t. subst out. split; [exact Hrun|].
  split; [discriminate|]. split; assumption.
Defined.


(** ** The expiry sweep *)

(** [get_all_expired] and [delete_expired] of either manager, by cases
    on whether the cutoff is a [datetime]. *)
Lemma TaskManager_get_all_expired_run ttl (db : DB Task) :
  TaskManager.get_all_expired ttl db =
  if decide (datetime_min <= clock db - ttl <= datetime_max)
  then (Return (mkQuerySet (clock db - ttl)), db)
  else (Raise OverflowError, db).
Proof.
  unfold TaskManager.get_all_expired, bind, datetime_now, datetime_sub.
  destruct (decide (datetime_min <= clock db - ttl <= datetime_max));
    reflexivity.
Qed.

Lemma TaskSetManager_get_all_expired_run ttl (db : DB TaskSet) :
  TaskSetManager.get_all_expired ttl db =
  if decide (datetime_min <= clock db - ttl <= datetime_max)
  then (Return (mkQuerySet (clock db - ttl)), db)
  else (Raise OverflowError, db).
Proof.
  unfold TaskSetManager.get_all_expired, bind, datetime_now, datetime_sub.
  destruct (decide (datetime_min <= clock db - ttl <= datetime_max));
    reflexivity.
Qed.

Lemma TaskManager_delete_expired_run ttl (db : DB Task) :
  TaskManager.delete_expired ttl db =
  if decide (datetime_min <= clock db - ttl <= datetime_max)
  then qs_delete (mkQuerySet (clock db - ttl)) db
  else (Raise OverflowError, db).
Proof.
  unfold TaskManager.delete_expired. unfold bind at 1.
  rewrite TaskManager_get_all_expired_run.
  destruct (decide (datetime_min <= clock db - ttl <= datetime_max));
    reflexivity.
Qed.

Lemma TaskSetManager_delete_expired_run ttl (db : DB TaskSet) :
  TaskSetManager.delete_expired ttl db =
  if decide (datetime_min <= clock db - ttl <= datetime_max)
  then qs_delete (mkQuerySet (clock db - ttl)) db
  else (Raise OverflowError, db).
Proof.
  unfold TaskSetManager.delete_expired. unfold bind at 1.
  rewrite TaskSetManager_get_all_expired_run.
  destruct (decide (datetime_min <= clock db - ttl <= datetime_max));
    reflexivity.
Qed.

(** The contract holds for a manager whose two methods run as those of
    the source do. *)
Lemma expiry_contract_holds {Row} `{Model Row}
    (get_all_expired : M Row QuerySet) (delete_expired : M Row unit)
    (ttl : Z) (db : DB Row) :
  get_all_expired db = (Return (mkQuerySet (clock db - ttl)), db) ->
  delete_expired db = qs_delete (mkQuerySet (clock db - ttl)) db ->
  next_fault db = None ->
  expiry_contract get_all_expired delete_expired ttl db.
Proof.
  intros Hq Hd Hnf. unfold expiry_contract.
  destruct (qs_list_run (mkQuerySet (clock db - ttl)) db Hnf)
    as (l & Hlist & Hmem).
  pose proof (qs_delete_run (mkQuerySet (clock db - ttl)) db) as Hdel.
  rewrite Hnf in Hdel. destruct Hdel as (db2 & Hdel & Hrows).
  exists (mkQuerySet (clock db - ttl)), l,
    (sent (EvSelect (clock db - ttl)) db), db2.
  split; [exact Hq|]. split; [exact Hlist|]. split; [exact Hmem|].
  split; [rewrite Hd; exact Hdel | exact Hrows].
Qed.

(** Claim C7.  For both managers, whatever the time on the clock and
    whatever [TASK_RESULT_EXPIRES] is, provided
    [now - TASK_RESULT_EXPIRES] is a [datetime] (so that the
    subtraction does not raise) and as long as the backend answers the
    query: listing [get_all_expired()] gives exactly the stored rows
    whose [date_done] is strictly before [now - TASK_RESULT_EXPIRES],
    and [delete_expired()] removes exactly those rows; a row with
    [date_done >= now - TASK_RESULT_EXPIRES] is found afterwards under
    its key, unchanged. *)
Theorem expiry_sweep (ttl : Z) (dbT : DB Task) (dbS : DB TaskSet) :
  next_fault dbT = None ->
  next_fault dbS = None ->
  datetime_min <= clock dbT - ttl <= datetime_max ->
  datetime_min <= clock dbS - ttl <= datetime_max ->
  expiry_contract (TaskManager.get_all_expired ttl)
    (TaskManager.delete_expired ttl) ttl dbT /\
  expiry_contract (TaskSetManager.get_all_expired ttl)
    (TaskSetManager.delete_expired ttl) ttl dbS.
Proof.
  intros HT HS HrT HrS. split.
  - apply expiry_contract_holds; [| |exact HT].
    + rewrite TaskManager_get_all_expired_run.
      destruct (decide (datetime_min <= clock dbT - ttl <= datetime_max));
        [reflexivity | contradiction].
    + rewrite TaskManager_delete_expired_run.
      destruct (decide (datetime_min <= clock dbT - ttl <= datetime_max));
        [reflexivity | contradiction].
  - apply expiry_contract_holds; [| |exact HS].
    + rewrite TaskSetManager_get_all_expired_run.
      destruct (decide (datetime_min <= clock dbS - ttl <= datetime_max));
        [reflexivity | contradiction].
    + rewrite TaskSetManager_delete_expired_run.
      destruct (decide (datetime_min <= clock dbS - ttl <= datetime_max));
        [reflexivity | contradiction].
Qed.

Lemma expiry_sweep_witness :
  exists db2,
    TaskManager.delete_expired 60 two_task_db = (Return tt, db2) /\
    rows db2 !! "t1" = None /\
    rows db2 !! "t2" = Some fresh_task.
Proof.
  destruct (expiry_sweep 60 two_task_db (empty_db 1000 []) eq_refl eq_refl)
    as [(q & l & db1 & db2 & _ & _ & _ & Hdel & Hrows) _];
    [ vm_compute; split; discriminate | vm_compute; split; discriminate | ].
  exists db2. split; [exact Hdel|].
  split; rewrite Hrows; reflexivity.
Defined.

(** Claim C5.  When no record is stored for [key], [get_taskset key]
    never writes the table and never returns a record: it returns
    [None] whenever the backend answers the lookup (and otherwise lets
    the backend's error through).  The same holds for any later call
    made while the table is still as this one left it, which therefore
    returns [None] again. *)
Theorem get_taskset_absent (key : string) (db : DB TaskSet) :
  rows db !! key = None ->
  exists out db',
    TaskSetManager.get_taskset key db = (out, db') /\
    rows db' = rows db /\
    (forall r, out <> Return (Some r)) /\
    (next_fault db = None -> out = Return None) /\
    (forall db1, rows db1 = rows db' ->
       exists out2 db2,
         TaskSetManager.get_taskset key db1 = (out2, db2) /\
         rows db2 = rows db /\
         (forall r, out2 <> Return (Some r)) /\
         (next_fault db1 = None -> out2 = Return None)).
Proof.
  intros Hmiss.
  assert (Hone : forall d : DB TaskSet, rows d = rows db ->
    exists out d',
      TaskSetManager.get_taskset key d = (out, d') /\
      rows d' = rows db /\
      (forall r, out <> Return (Some r)) /\
      (next_fault d = None -> out = Return None)).
  { intros d Hd. rewrite get_taskset_miss by (rewrite Hd; exact Hmiss).
    destruct (next_fault d) as [e|]; eexists _, _;
      (split; [reflexivity|]); (split; [exact Hd|]); split;
      try discriminate; auto. }
  destruct (Hone db eq_refl) as (out & db' & Hrun & Hrows & Hnone & Hret).
  exists out, db'. split; [exact Hrun|]. split; [exact Hrows|].
  split; [exact Hnone|]. split; [exact Hret|].
  intros db1 Hsame. apply Hone. congruence.
Qed.

Lemma get_taskset_absent_witness :
  exists db',
    TaskSetManager.get_taskset "missing-id" (empty_db 100 []) =
    (Return None, db') /\
    rows db' = ∅ /\
    exists db2,
      TaskSetManager.get_taskset "missing-id" db' = (Return None, db2).
Proof.
  destruct (get_taskset_absent "missing-id" (empty_db 100 []))
    as (out & db' & Hrun & Hrows & _ & Hret & Hagain);
    [reflexivity|].
  rewrite (Hret eq_refl) in Hrun.
  exists db'. split; [exact Hrun|]. split; [exact Hrows|].
  destruct (Hagain db' eq_refl) as (out2 & db2 & Hrun2 & _ & _ & Hret2).
  exists db2. rewrite Hrun2. f_equal. apply Hret2.
  vm_compute in Hrun. injection Hrun as <-. reflexivity.
Defined.




(** ** Further properties of [TaskManager] *)

Section TaskManagerBudget.
Variable default_status : string.
Variable default_result : string.
Variable default_traceback : option string.

Local Abbreviation get_task :=
  (TaskManager.get_task default_status default_result default_traceback).
Local Abbreviation store_result :=
  (TaskManager.store_result default_status default_result default_traceback).
Local Abbreviation Task_new :=
  (TaskManager.Task_new default_status default_result default_traceback).
Local Abbreviation is_successful :=
  (TaskManager.is_successful default_status default_result default_traceback).

Implicit Types (db : DB Task) (key : string) (n : Z).

(** [store_result], unfolded one attempt, as an equation that rewrites. *)
Lemma store_result_unfold key (res st : string) (tb : option string) n db :
  store_result key res st tb n db =
  match next_fault db with
  | Some e =>
      if decide (n > 0)
      then
        match next_fault (sent (EvGetOrCreate key) db) with
        | Some e' =>
            (Raise (BackendError e'),
             rolled_back (sent (EvGetOrCreate key) db))
        | None =>
            store_result key res st tb (n - 1)
              (rolled_back (sent (EvGetOrCreate key) db))
        end
      else (Raise (BackendError e), sent (EvGetOrCreate key) db)
  | None =>
      match rows db !! key with
      | None =>
          (Return tt,
           mkDB (<[key := stored key res st tb (clock db)]> (rows db))
             (clock db) (tail (faults db)) (log db ++ [EvGetOrCreate key]))
      | Some t =>
          match next_fault (sent (EvGetOrCreate key) db) with
          | Some e =>
              if decide (n > 0)
              then
                match next_fault
                        (sent (EvSave (pk t)) (sent (EvGetOrCreate key) db))
                with
                | Some e' =>
                    (Raise (BackendError e'),
                     rolled_back
                       (sent (EvSave (pk t)) (sent (EvGetOrCreate key) db)))
                | None =>
                    store_result key res st tb (n - 1)
                      (rolled_back
                         (sent (EvSave (pk t))
                            (sent (EvGetOrCreate key) db)))
                end
              else (Raise (BackendError e),
                    sent (EvSave (pk t)) (sent (EvGetOrCreate key) db))
          | None =>
              (Return tt,
               mkDB (<[pk t := stored (pk t) res st tb (clock db)]> (rows db))
                 (clock db) (tail (faults (sent (EvGetOrCreate key) db)))
                 (log (sent (EvGetOrCreate key) db) ++ [EvSave (pk t)]))
          end
      end
  end.
Proof.
  exact (store_result_step default_status default_result default_traceback
           key res st tb n db).
Qed.

(** A budget that is zero or negative is no budget: the [> 0] test
    fails at once, so the call is one attempt, never rolls back, and
    does what the call with budget [0] does. *)
Theorem nonpositive_budget_is_one_attempt key (res st : string)
    (tb : option string) n db :
  n <= 0 ->
  get_task key n db = get_task key 0 db /\
  store_result key res st tb n db = store_result key res st tb 0 db /\
  (forall out db', get_task key n db = (out, db') ->
     attempts (log db') = S (attempts (log db)) /\
     rollbacks (log db') = rollbacks (log db)) /\
  (forall out db', store_result key res st tb n db = (out, db') ->
     attempts (log db') = S (attempts (log db)) /\
     rollbacks (log db') = rollbacks (log db)).
Proof.
  intros Hn. split; [|split; [|split]].
  - rewrite (get_task_step _ _ _ key n db), (get_task_step _ _ _ key 0 db).
    destruct (next_fault db); [|reflexivity].
    destruct (decide (n > 0)); [lia|]. destruct (decide (0 > 0)); [lia|].
    reflexivity.
  - rewrite (store_result_unfold key res st tb n db),
            (store_result_unfold key res st tb 0 db).
    destruct (next_fault db).
    + destruct (decide (n > 0)); [lia|]. destruct (decide (0 > 0)); [lia|].
      reflexivity.
    + destruct (rows db !! key); [|reflexivity].
      destruct (next_fault (sent (EvGetOrCreate key) db)); [|reflexivity].
      destruct (decide (n > 0)); [lia|]. destruct (decide (0 > 0)); [lia|].
      reflexivity.
  - intros out db'. rewrite get_task_step.
    destruct (next_fault db).
    + destruct (decide (n > 0)); [lia|]. intros [= <- <-]. simpl.
      rewrite attempts_app, rollbacks_app. simpl. lia.
    + destruct (rows db !! key); intros [= <- <-]; simpl;
        rewrite attempts_app, rollbacks_app; simpl; lia.
  - intros out db'. rewrite store_result_unfold.
    destruct (next_fault db).
    + destruct (decide (n > 0)); [lia|]. intros [= <- <-]. simpl.
      rewrite attempts_app, rollbacks_app. simpl. lia.
    + destruct (rows db !! key).
      * destruct (next_fault (sent (EvGetOrCreate key) db)).
        -- destruct (decide (n > 0)); [lia|]. intros [= <- <-]. simpl.
           rewrite !attempts_app, !rollbacks_app. simpl. lia.
        -- intros [= <- <-]. simpl.
           rewrite !attempts_app, !rollbacks_app. simpl. lia.
      * intros [= <- <-]. simpl.
        rewrite attempts_app, rollbacks_app. simpl. lia.
Qed.

(** The retry of [get_task] is bounded whatever the backend does.  A
    call with budget [n] makes [a] attempts and [r] rollbacks with
    [1 <= a <= n + 1] ([a = 1] when [n] is negative) and [r <= n].  A
    call that returns has made one rollback between any two attempts
    ([a = r + 1]).  A call that raises has either spent the budget
    ([a = n + 1] attempts, [n] rollbacks: the error is that of the last
    attempt) or ended in a rollback that raised ([a = r]). *)
Theorem get_task_attempts_bounded key n db :
  exists out db' (a r : nat),
    get_task key n db = (out, db') /\
    attempts (log db') = (attempts (log db) + a)%nat /\
    rollbacks (log db') = (rollbacks (log db) + r)%nat /\
    (1 <= a <= Z.to_nat n + 1)%nat /\ (r <= Z.to_nat n)%nat /\
    match out with
    | Return _ => a = (r + 1)%nat
    | Raise _ =>
        (a = (Z.to_nat n + 1)%nat /\ r = Z.to_nat n) \/ a = r
    end.
Proof.
  remember (Z.to_nat n) as k eqn:Hk. revert n db Hk.
  induction k as [|k IH]; intros n db Hk; rewrite get_task_step.
  - destruct (next_fault db) as [e|].
    + destruct (decide (n > 0)); [lia|].
      exists (Raise (BackendError e)), (sent (EvGetOrCreate key) db),
        1%nat, 0%nat.
      split; [reflexivity|]. simpl. rewrite attempts_app, rollbacks_app.
      simpl. repeat split; lia.
    + destruct (rows db !! key); eexists _, _, 1%nat, 0%nat;
        (split; [reflexivity|]); simpl; rewrite attempts_app, rollbacks_app;
        simpl; repeat split; lia.
  - destruct (next_fault db) as [e|].
    + destruct (decide (n > 0)); [|lia].
      destruct (next_fault (sent (EvGetOrCreate key) db)) as [e'|].
      * exists (Raise (BackendError e')),
          (rolled_back (sent (EvGetOrCreate key) db)), 1%nat, 1%nat.
        split; [reflexivity|]. simpl.
        rewrite !attempts_app, !rollbacks_app. simpl.
        repeat split; lia.
      * destruct (IH (n - 1) (rolled_back (sent (EvGetOrCreate key) db)))
          as (out & db' & a & r & Hrun & Ha & Hr & Hab & Hrb & Hout); [lia|].
        exists out, db', (S a), (S r). split; [exact Hrun|].
        simpl in Ha, Hr. rewrite !attempts_app in Ha.
        rewrite !rollbacks_app in Hr. simpl in Ha, Hr.
        split; [lia|]. split; [lia|]. split; [lia|]. split; [lia|].
        destruct out; [lia|]. destruct Hout as [[? ?]|?]; [left|right]; lia.
    + destruct (rows db !! key); eexists _, _, 1%nat, 0%nat;
        (split; [reflexivity|]); simpl; rewrite attempts_app, rollbacks_app;
        simpl; repeat split; lia.
Qed.

(** The same bound for [store_result], whether its attempts fail at
    [get_or_create] or at [save]. *)
Theorem store_result_attempts_bounded key (res st : string)
    (tb : option string) n db :
  exists out db' (a r : nat),
    store_result key res st tb n db = (out, db') /\
    attempts (log db') = (attempts (log db) + a)%nat /\
    rollbacks (log db') = (rollbacks (log db) + r)%nat /\
    (1 <= a <= Z.to_nat n + 1)%nat /\ (r <= Z.to_nat n)%nat /\
    match out with
    | Return _ => a = (r + 1)%nat
    | Raise _ =>
        (a = (Z.to_nat n + 1)%nat /\ r = Z.to_nat n) \/ a = r
    end.
Proof.
  remember (Z.to_nat n) as k eqn:Hk. revert n db Hk.
  assert (Hlast : forall db (out : Outcome unit) (db1 : DB Task) (m : nat),
    attempts (log db1) = (attempts (log db) + 1)%nat ->
    rollbacks (log db1) = rollbacks (log db) ->
    match out with Return _ => True | Raise _ => m = 0%nat end ->
    exists out' db' (a r : nat),
      (out, db1) = (out', db') /\
      attempts (log db') = (attempts (log db) + a)%nat /\
      rollbacks (log db') = (rollbacks (log db) + r)%nat /\
      (1 <= a <= m + 1)%nat /\ (r <= m)%nat /\
      match out' with
      | Return _ => a = (r + 1)%nat
      | Raise _ => (a = (m + 1)%nat /\ r = m) \/ a = r
      end).
  { intros db out db1 m Ha Hr Hm. exists out, db1, 1%nat, 0%nat.
    split; [reflexivity|]. split; [exact Ha|]. split; [lia|].
    split; [lia|]. split; [lia|]. destruct out; [lia|]. left. lia. }
  induction k as [|k IH]; intros n db Hk; rewrite store_result_unfold.
  - destruct (next_fault db) as [e|].
    + destruct (decide (n > 0)); [lia|].
      apply Hlast; simpl; rewrite ?attempts_app, ?rollbacks_app; simpl;
        auto; lia.
    + destruct (rows db !! key) as [t|].
      * destruct (next_fault (sent (EvGetOrCreate key) db)) as [e|].
        -- destruct (decide (n > 0)); [lia|].
           apply Hlast; simpl; rewrite ?attempts_app, ?rollbacks_app; simpl;
             auto; lia.
        -- apply Hlast; simpl; rewrite ?attempts_app, ?rollbacks_app; simpl;
             auto; lia.
      * apply Hlast; simpl; rewrite ?attempts_app, ?rollbacks_app; simpl;
          auto; lia.
  - assert (Hrec : forall db1,
      attempts (log db1) = (attempts (log db) + 1)%nat ->
      rollbacks (log db1) = rollbacks (log db) ->
      exists out db' (a r : nat),
        match next_fault db1 with
        | Some e' => (Raise (BackendError e'), rolled_back db1)
        | None => store_result key res st tb (n - 1) (rolled_back db1)
        end = (out, db') /\
        attempts (log db') = (attempts (log db) + a)%nat /\
        rollbacks (log db') = (rollbacks (log db) + r)%nat /\
        (1 <= a <= S k + 1)%nat /\ (r <= S k)%nat /\
        match out with
        | Return _ => a = (r + 1)%nat
        | Raise _ => (a = (S k + 1)%nat /\ r = S k) \/ a = r
        end).
    { intros db1 Ha1 Hr1. destruct (next_fault db1) as [e'|].
      - exists (Raise (BackendError e')), (rolled_back db1), 1%nat, 1%nat.
        split; [reflexivity|]. simpl. rewrite attempts_app, rollbacks_app.
        simpl. repeat split; lia.
      - destruct (IH (n - 1) (rolled_back db1))
          as (out & db' & a & r & Hrun & Ha & Hr & Hab & Hrb & Hout); [lia|].
        exists out, db', (S a), (S r). split; [exact Hrun|].
        simpl in Ha, Hr. rewrite attempts_app in Ha.
        rewrite rollbacks_app in Hr. simpl in Ha, Hr.
        split; [lia|]. split; [lia|]. split; [lia|]. split; [lia|].
        destruct out; [lia|]. destruct Hout as [[? ?]|?]; [left|right]; lia. }
    destruct (next_fault db) as [e|].
    + destruct (decide (n > 0)); [|lia].
      apply Hrec; simpl; rewrite ?attempts_app, ?rollbacks_app; simpl; lia.
    + destruct (rows db !! key) as [t|].
      * destruct (next_fault (sent (EvGetOrCreate key) db)) as [e|].
        -- destruct (decide (n > 0)); [|lia].
           apply Hrec; simpl; rewrite ?attempts_app, ?rollbacks_app; simpl;
             lia.
        -- apply Hlast; simpl; rewrite ?attempts_app, ?rollbacks_app; simpl;
             auto; lia.
      * apply Hlast; simpl; rewrite ?attempts_app, ?rollbacks_app; simpl;
          auto; lia.
Qed.

(** The retry of [get_task] is transparent.  When the backend refuses
    the [get_or_create] of the first [length errs] attempts, each of
    the rollbacks that follow returns, the budget covers these
    attempts, and the next query is answered, the call returns what an
    undisturbed call returns: the row that was there (table unchanged)
    or a new row with the field defaults (table extended by it).  It
    has made one attempt per refusal and one more, with one rollback
    per refusal. *)
Theorem get_task_recovers key (errs : list DbError) :
  forall (rest : list (option DbError)) n db,
    faults db = (retried_answers (AtGetOrCreate <$> errs) ++ rest)%list ->
    (forall e, rest !! 0%nat <> Some (Some e)) ->
    Z.of_nat (length errs) <= n ->
    exists t db',
      get_task key n db = (Return t, db') /\
      match rows db !! key with
      | Some t0 => t = t0 /\ rows db' = rows db
      | None =>
          t = mkTask key default_status default_result default_traceback
                (clock db) /\
          rows db' = <[key := t]> (rows db)
      end /\
      attempts (log db') = (attempts (log db) + length errs + 1)%nat /\
      rollbacks (log db') = (rollbacks (log db) + length errs)%nat /\
      faults db' = tail rest.
Proof.
  induction errs as [|e1 errs IH]; intros rest n db Hf Hans Hn;
    rewrite get_task_step.
  - simpl in Hf.
    assert (Hnf : next_fault db = None).
    { apply next_fault_lookup. rewrite Hf. exact Hans. }
    rewrite Hnf.
    destruct (rows db !! key) as [t0|]; eexists _, _;
      (split; [reflexivity|]); simpl; rewrite attempts_app, rollbacks_app;
      simpl; rewrite Hf; repeat split; try reflexivity; lia.
  - simpl in Hf.
    rewrite (next_fault_cons db _ _ Hf).
    pose proof (faults_sent_cons (EvGetOrCreate key) db _ _ Hf) as Hf1.
    rewrite (next_fault_cons _ _ _ Hf1).
    destruct (decide (n > 0)); [|simpl in Hn; lia].
    destruct (IH rest (n - 1) (rolled_back (sent (EvGetOrCreate key) db)))
      as (t & db' & Hrun & Hrows & Hatt & Hrb & Hfaults).
    + exact (faults_sent_cons EvRollback _ _ _ Hf1).
    + exact Hans.
    + simpl length in Hn. lia.
    + exists t, db'. split; [exact Hrun|]. simpl in Hrows, Hatt, Hrb.
      rewrite !attempts_app in Hatt. rewrite !rollbacks_app in Hrb.
      simpl in Hatt, Hrb. cbn [length].
      split; [exact Hrows|]. split; [lia|]. split; [lia|]. exact Hfaults.
Qed.

(** The same for [store_result] on a well-formed table, whether the
    first attempts fail at [get_or_create] or at [save], when the
    rollbacks return and the two queries of the attempt that follows
    are answered: the payload is filed under the key, as an
    undisturbed call files it. *)
Theorem store_result_recovers key (res st : string) (tb : option string)
    (fs : list AttemptFailure) :
  forall (rest : list (option DbError)) n db,
    table_ok db ->
    faults db = (retried_answers fs ++ rest)%list ->
    Forall (fun f => fails_at_save f = true -> is_Some (rows db !! key)) fs ->
    (forall i e, (i < 2)%nat -> rest !! i <> Some (Some e)) ->
    Z.of_nat (length fs) <= n ->
    exists db',
      store_result key res st tb n db = (Return tt, db') /\
      rows db' = <[key := stored key res st tb (clock db)]> (rows db) /\
      attempts (log db') = (attempts (log db) + length fs + 1)%nat /\
      rollbacks (log db') = (rollbacks (log db) + length fs)%nat.
Proof.
  induction fs as [|f0 fs IH]; intros rest n db Hok Hf Hrow Hans Hn;
    rewrite store_result_unfold.
  - simpl in Hf.
    assert (Hnf : next_fault db = None).
    { apply next_fault_lookup. rewrite Hf. intros e. apply Hans. lia. }
    rewrite Hnf.
    destruct (rows db !! key) as [t0|] eqn:Hl.
    + assert (Hnf2 : next_fault (sent (EvGetOrCreate key) db) = None).
      { apply next_fault_lookup. intros e. rewrite lookup_faults_sent, Hf.
        apply Hans. lia. }
      rewrite Hnf2, (Hok _ _ Hl).
      eexists. split; [reflexivity|]. simpl.
      rewrite !attempts_app, !rollbacks_app. simpl. repeat split; lia.
    + eexists. split; [reflexivity|]. simpl.
      rewrite !attempts_app, !rollbacks_app. simpl. repeat split; lia.
  - cbn [retried_answers] in Hf. rewrite <- !app_assoc in Hf.
    apply Forall_cons in Hrow as [Hr0 Hrow]. cbn [length] in Hn.
    destruct (decide (n > 0)); [|lia].
    destruct f0 as [e0|e0]; simpl in Hf.
    + rewrite (next_fault_cons db _ _ Hf).
      pose proof (faults_sent_cons (EvGetOrCreate key) db _ _ Hf) as Hf1.
      rewrite (next_fault_cons _ _ _ Hf1).
      destruct (IH rest (n - 1) (rolled_back (sent (EvGetOrCreate key) db)))
        as (db' & Hrun & Hrows & Hatt & Hrb).
      * eapply table_ok_same; [exact Hok|reflexivity].
      * exact (faults_sent_cons EvRollback _ _ _ Hf1).
      * exact Hrow.
      * exact Hans.
      * lia.
      * exists db'. split; [exact Hrun|]. simpl in Hrows, Hatt, Hrb.
        rewrite !attempts_app in Hatt. rewrite !rollbacks_app in Hrb.
        simpl in Hatt, Hrb. cbn [length].
        split; [exact Hrows|]. split; lia.
    + rewrite (next_fault_cons db _ _ Hf).
      destruct (Hr0 eq_refl) as [t Ht]. rewrite Ht.
      pose proof (faults_sent_cons (EvGetOrCreate key) db _ _ Hf) as Hf1.
      rewrite (next_fault_cons _ _ _ Hf1).
      pose proof (faults_sent_cons (EvSave (pk t)) _ _ _ Hf1) as Hf2.
      rewrite (next_fault_cons _ _ _ Hf2).
      destruct (IH rest (n - 1)
                  (rolled_back
                     (sent (EvSave (pk t)) (sent (EvGetOrCreate key) db))))
        as (db' & Hrun & Hrows & Hatt & Hrb).
      * eapply table_ok_same; [exact Hok|reflexivity].
      * exact (faults_sent_cons EvRollback _ _ _ Hf2).
      * exact Hrow.
      * exact Hans.
      * lia.
      * exists db'. split; [exact Hrun|]. simpl in Hrows, Hatt, Hrb.
        rewrite !attempts_app in Hatt. rewrite !rollbacks_app in Hrb.
        simpl in Hatt, Hrb. cbn [length].
        split; [exact Hrows|]. split; lia.
Qed.

Lemma get_task_budget_mono key :
  forall n m db t db',
    n <= m ->
    get_task key n db = (Return t, db') ->
    get_task key m db = (Return t, db').
Proof.
  intros n. remember (Z.to_nat n) as k eqn:Hk. revert n Hk.
  induction k as [|k IH]; intros n Hk m db t db' Hnm;
    rewrite (get_task_step _ _ _ key n), (get_task_step _ _ _ key m);
    destruct (next_fault db) as [e|].
  - destruct (decide (n > 0)); [lia|]. discriminate.
  - intros H; exact H.
  - destruct (decide (n > 0)); [|discriminate].
    destruct (decide (m > 0)); [|lia].
    destruct (next_fault (sent (EvGetOrCreate key) db)); [discriminate|].
    apply (IH (n - 1)); lia.
  - intros H; exact H.
Qed.

Lemma store_result_budget_mono key (res st : string) (tb : option string) :
  forall n m db db',
    n <= m ->
    store_result key res st tb n db = (Return tt, db') ->
    store_result key res st tb m db = (Return tt, db').
Proof.
  intros n. remember (Z.to_nat n) as k eqn:Hk. revert n Hk.
  induction k as [|k IH]; intros n Hk m db db' Hnm;
    rewrite (store_result_unfold key res st tb n),
            (store_result_unfold key res st tb m);
    destruct (next_fault db) as [e|].
  - destruct (decide (n > 0)); [lia|]. discriminate.
  - destruct (rows db !! key) as [t|]; [|intros H; exact H].
    destruct (next_fault (sent (EvGetOrCreate key) db));
      [|intros H; exact H].
    destruct (decide (n > 0)); [lia|]. discriminate.
  - destruct (decide (n > 0)); [|discriminate].
    destruct (decide (m > 0)); [|lia].
    destruct (next_fault (sent (EvGetOrCreate key) db)); [discriminate|].
    apply (IH (n - 1)); lia.
  - destruct (rows db !! key) as [t|]; [|intros H; exact H].
    destruct (next_fault (sent (EvGetOrCreate key) db));
      [|intros H; exact H].
    destruct (decide (n > 0)); [|discriminate].
    destruct (decide (m > 0)); [|lia].
    destruct (next_fault
                (sent (EvSave (pk t)) (sent (EvGetOrCreate key) db)));
      [discriminate|].
    apply (IH (n - 1)); lia.
Qed.

(** A larger budget never changes a success: a call that succeeds with
    budget [n] succeeds with every budget [m >= n], with the same
    result and the same connection state afterwards. *)
Theorem larger_budget_same_success key (res st : string)
    (tb : option string) n m db :
  n <= m ->
  (forall t db', get_task key n db = (Return t, db') ->
                 get_task key m db = (Return t, db')) /\
  (forall db', store_result key res st tb n db = (Return tt, db') ->
               store_result key res st tb m db = (Return tt, db')).
Proof.
  intros Hnm. split.
  - intros t db'. apply get_task_budget_mono. exact Hnm.
  - intros db'. apply store_result_budget_mono. exact Hnm.
Qed.

(** [store_result] is all or nothing on a well-formed table: either the
    row under the key becomes exactly the payload of the call, or an
    error of the backend is raised and the table is as it was.  In
    both cases every other row is untouched and the table stays well
    formed. *)
Theorem store_result_all_or_nothing key (res st : string)
    (tb : option string) n db :
  table_ok db ->
  exists out db',
    store_result key res st tb n db = (out, db') /\
    table_ok db' /\
    (forall k, k <> key -> rows db' !! k = rows db !! k) /\
    match out with
    | Return _ => rows db' !! key = Some (stored key res st tb (clock db))
    | Raise e => rows db' = rows db /\ e <> DoesNotExist
    end.
Proof.
  intros Hok.
  destruct (store_result_spec default_status default_result default_traceback
              key res st tb n db Hok) as (out & db' & Hrun & _ & Hout).
  exists out, db'. split; [exact Hrun|].
  destruct out as [u|e].
  - split; [|split].
    + eapply (table_ok_insert db (stored key res st tb (clock db)));
        [exact Hok | exact Hout].
    + intros k Hk. rewrite Hout. apply lookup_insert_ne. congruence.
    + rewrite Hout. apply lookup_insert_eq.
  - destruct Hout as [Hrows (d & -> & _)]. split; [|split].
    + eapply table_ok_same; eauto.
    + intros k _. rewrite Hrows. reflexivity.
    + split; [exact Hrows | discriminate].
Qed.

(** [is_successful] is [get_task] with the default budget followed by
    the comparison of the status with ["SUCCESS"]. *)
Lemma is_successful_run key db :
  is_successful key db =
  match get_task key 1 db with
  | (Return t, db') => (Return (bool_decide (status t = "SUCCESS")), db')
  | (Raise e, db') => (Raise e, db')
  end.
Proof.
  unfold TaskManager.is_successful, TaskManager.get_task_kw, bind. simpl.
  unfold TaskManager.get_task_exception_retry_count.
  destruct (get_task key 1 db) as [[t|e] db']; reflexivity.
Qed.

(** After a successful [store_result key res st tb], and with no write
    in between, [is_successful key] leaves the table as it is and can
    only answer whether [st] is the string ["SUCCESS"]; it does answer
    as soon as the backend answers the [get_or_create] of one of its
    two attempts (backend call [2 * k] for attempt [k]) and, for the
    second attempt, the rollback before it (call 1) returns. *)
Theorem is_successful_after_store_result key (res st : string)
    (tb : option string) n db db1 db1' :
  table_ok db ->
  store_result key res st tb n db = (Return tt, db1) ->
  rows db1' = rows db1 ->
  exists out db2,
    is_successful key db1' = (out, db2) /\
    rows db2 = rows db1 /\
    (forall b, out = Return b -> b = bool_decide (st = "SUCCESS")) /\
    (forall k, (k <= 1)%nat ->
               (forall e, faults db1' !! (2 * k)%nat <> Some (Some e)) ->
               (forall j e, (j < k)%nat ->
                  faults db1' !! (2 * j + 1)%nat <> Some (Some e)) ->
               out = Return (bool_decide (st = "SUCCESS"))).
Proof.
  intros Hok Hstore Hsame.
  destruct (store_result_filed default_status default_result
              default_traceback key res st tb n db db1 Hok Hstore)
    as [Hfiled _].
  rewrite <- Hsame in Hfiled.
  destruct (get_task_spec default_status default_result default_traceback
              key 1 db1') as (out & db2 & Hrun & _ & Hout).
  rewrite Hfiled in Hout. rewrite is_successful_run, Hrun.
  destruct out as [t|e].
  - destruct Hout as [-> Hrows].
    eexists _, _. split; [reflexivity|]. split; [congruence|].
    split; [intros b [= <-]; reflexivity | intros; reflexivity].
  - destruct Hout as [Hrows _].
    eexists _, _. split; [reflexivity|]. split; [congruence|].
    split; [intros b; discriminate|].
    intros k Hk Hans Hrb.
    destruct (get_task_returns default_status default_result
                default_traceback key k 1 db1' Hk Hans Hrb)
      as (t & d & Hret).
    congruence.
Qed.

(** Asking about a task that has no record is not a pure read: when
    the backend answers, [is_successful] files a new record with the
    field defaults under the key, and its answer is whether the
    default status is ["SUCCESS"]. *)
Theorem is_successful_creates_record key db :
  rows db !! key = None ->
  next_fault db = None ->
  exists db',
    is_successful key db =
    (Return (bool_decide (default_status = "SUCCESS")), db') /\
    rows db' =
    <[key := mkTask key default_status default_result default_traceback
               (clock db)]> (rows db).
Proof.
  intros Hmiss Hnf.
  rewrite is_successful_run, get_task_step, Hnf, Hmiss. simpl.
  eexists. split; reflexivity.
Qed.

(** A rollback that raises ends the call at once, budget or no budget
    left: when the backend refuses the [get_or_create] of an attempt
    and then the rollback that follows, [get_task] and [store_result]
    raise the error of the rollback after that one attempt, with the
    table as it was. *)
Theorem failed_rollback_ends_call key (res st : string)
    (tb : option string) n db (e e' : DbError) :
  n > 0 ->
  next_fault db = Some e ->
  next_fault (sent (EvGetOrCreate key) db) = Some e' ->
  get_task key n db =
  (Raise (BackendError e'), rolled_back (sent (EvGetOrCreate key) db)) /\
  store_result key res st tb n db =
  (Raise (BackendError e'), rolled_back (sent (EvGetOrCreate key) db)) /\
  rows (rolled_back (sent (EvGetOrCreate key) db)) = rows db /\
  log (rolled_back (sent (EvGetOrCreate key) db)) =
  (log db ++ [EvGetOrCreate key; EvRollback])%list.
Proof.
  intros Hn Hnf Hnf1. split; [|split; [|split]].
  - rewrite get_task_step, Hnf, Hnf1.
    destruct (decide (n > 0)); [reflexivity | lia].
  - rewrite store_result_unfold, Hnf, Hnf1.
    destruct (decide (n > 0)); [reflexivity | lia].
  - reflexivity.
  - simpl. rewrite <- app_assoc. reflexivity.
Qed.

End TaskManagerBudget.

(** ** Further properties of the expiry sweep *)

Section Sweep.
Context {Row : Type} `{Model Row}.
Implicit Types (db : DB Row) (ttl : Z).

(** The sweep query at time [clock db]. *)
Lemma sweep_refused ttl db e :
  next_fault db = Some e ->
  qs_delete (mkQuerySet (clock db - ttl)) db =
  (Raise (BackendError e), sent (EvDelete (clock db - ttl)) db).
Proof.
  intros Hnf. unfold qs_delete, bind, query. rewrite Hnf. reflexivity.
Qed.

Lemma sweep_lookup ttl db out db' :
  qs_delete (mkQuerySet (clock db - ttl)) db = (out, db') ->
  forall k r, rows db' !! k = Some r ->
    rows db !! k = Some r /\
    (out = Return tt -> ~ date_done_of r < clock db - ttl).
Proof.
  intros Hrun k r Hk.
  pose proof (qs_delete_run (mkQuerySet (clock db - ttl)) db) as Hdel.
  destruct (next_fault db) as [e|].
  - destruct Hdel as (d & Hd & Hrows). rewrite Hd in Hrun.
    injection Hrun as <- <-. rewrite Hrows in Hk. split; [exact Hk|].
    discriminate.
  - destruct Hdel as (d & Hd & Hrows). rewrite Hd in Hrun.
    injection Hrun as <- <-. rewrite Hrows in Hk. simpl in Hk.
    destruct (rows db !! k) as [r0|]; [|discriminate].
    destruct (decide (date_done_of r0 < clock db - ttl)); [discriminate|].
    injection Hk as <-. split; [reflexivity|]. intros _. assumption.
Qed.

(** A second sweep, made no later than the first and on the table the
    first one left, finds nothing to delete. *)
Lemma sweep_twice ttl db db1 db2 out db3 :
  qs_delete (mkQuerySet (clock db - ttl)) db = (Return tt, db1) ->
  rows db2 = rows db1 ->
  clock db2 <= clock db ->
  qs_delete (mkQuerySet (clock db2 - ttl)) db2 = (out, db3) ->
  rows db3 = rows db1.
Proof.
  intros Hfirst Hsame Hclock Hsecond.
  pose proof (qs_delete_run (mkQuerySet (clock db2 - ttl)) db2) as Hdel.
  destruct (next_fault db2) as [e|];
    destruct Hdel as (d & Hd & Hrows); rewrite Hd in Hsecond;
    injection Hsecond as <- <-.
  - congruence.
  - apply map_eq. intros k. rewrite Hrows, Hsame. simpl.
    destruct (rows db1 !! k) as [r|] eqn:Hk; [|reflexivity].
    destruct (sweep_lookup ttl db _ _ Hfirst k r Hk) as [_ Hkeep].
    specialize (Hkeep eq_refl).
    destruct (decide (date_done_of r < clock db2 - ttl)); [lia|reflexivity].
Qed.

End Sweep.

(** When [now - TASK_RESULT_EXPIRES] is not a [datetime], the
    subtraction raises before anything is sent to the backend:
    [get_all_expired] and [delete_expired] of both managers raise
    [OverflowError] and leave the connection exactly as it was, so no
    row is listed or deleted. *)
Theorem expiry_cutoff_overflow ttl (dbT : DB Task) (dbS : DB TaskSet) :
  ~ datetime_min <= clock dbT - ttl <= datetime_max ->
  ~ datetime_min <= clock dbS - ttl <= datetime_max ->
  TaskManager.get_all_expired ttl dbT = (Raise OverflowError, dbT) /\
  TaskManager.delete_expired ttl dbT = (Raise OverflowError, dbT) /\
  TaskSetManager.get_all_expired ttl dbS = (Raise OverflowError, dbS) /\
  TaskSetManager.delete_expired ttl dbS = (Raise OverflowError, dbS).
Proof.
  intros HT HS.
  rewrite TaskManager_get_all_expired_run, TaskManager_delete_expired_run,
    TaskSetManager_get_all_expired_run, TaskSetManager_delete_expired_run.
  destruct (decide (datetime_min <= clock dbT - ttl <= datetime_max));
    [contradiction|].
  destruct (decide (datetime_min <= clock dbS - ttl <= datetime_max));
    [contradiction|].
  repeat split.
Qed.

(** [delete_expired] has no [try] around it: when the cutoff is a
    [datetime] and the backend refuses the DELETE, the error reaches
    the caller at once, after that one query and without any rollback,
    and no row has been deleted.  This holds for both managers. *)
Theorem delete_expired_is_not_retried ttl (e : DbError)
    (dbT : DB Task) (dbS : DB TaskSet) :
  datetime_min <= clock dbT - ttl <= datetime_max ->
  datetime_min <= clock dbS - ttl <= datetime_max ->
  next_fault dbT = Some e ->
  next_fault dbS = Some e ->
  (exists db',
     TaskManager.delete_expired ttl dbT = (Raise (BackendError e), db') /\
     rows db' = rows dbT /\
     log db' = (log dbT ++ [EvDelete (clock dbT - ttl)])%list) /\
  (exists db',
     TaskSetManager.delete_expired ttl dbS = (Raise (BackendError e), db') /\
     rows db' = rows dbS /\
     log db' = (log dbS ++ [EvDelete (clock dbS - ttl)])%list).
Proof.
  intros HrT HrS HT HS. split.
  - rewrite TaskManager_delete_expired_run.
    destruct (decide (datetime_min <= clock dbT - ttl <= datetime_max));
      [|contradiction].
    rewrite (sweep_refused ttl dbT e HT).
    eexists. split; [reflexivity|]. split; reflexivity.
  - rewrite TaskSetManager_delete_expired_run.
    destruct (decide (datetime_min <= clock dbS - ttl <= datetime_max));
      [|contradiction].
    rewrite (sweep_refused ttl dbS e HS).
    eexists. split; [reflexivity|]. split; reflexivity.
Qed.

(** [delete_expired] is idempotent: after a successful sweep, a second
    sweep on the table it left, made at the same time or earlier,
    deletes nothing, whatever the backend answers.  This holds for
    both managers. *)
Theorem delete_expired_twice ttl
    (dbT dbT1 dbT2 : DB Task) (dbS dbS1 dbS2 : DB TaskSet) :
  TaskManager.delete_expired ttl dbT = (Return tt, dbT1) ->
  rows dbT2 = rows dbT1 -> clock dbT2 <= clock dbT ->
  TaskSetManager.delete_expired ttl dbS = (Return tt, dbS1) ->
  rows dbS2 = rows dbS1 -> clock dbS2 <= clock dbS ->
  (forall out db3, TaskManager.delete_expired ttl dbT2 = (out, db3) ->
                   rows db3 = rows dbT1) /\
  (forall out db3, TaskSetManager.delete_expired ttl dbS2 = (out, db3) ->
                   rows db3 = rows dbS1).
Proof.
  intros HT HTr HTc HS HSr HSc. split; intros out db3 Hrun.
  - rewrite TaskManager_delete_expired_run in HT, Hrun.
    destruct (decide (datetime_min <= clock dbT - ttl <= datetime_max));
      [|discriminate].
    destruct (decide (datetime_min <= clock dbT2 - ttl <= datetime_max)).
    + exact (sweep_twice ttl dbT dbT1 dbT2 out db3 HT HTr HTc Hrun).
    + injection Hrun as _ <-. exact HTr.
  - rewrite TaskSetManager_delete_expired_run in HS, Hrun.
    destruct (decide (datetime_min <= clock dbS - ttl <= datetime_max));
      [|discriminate].
    destruct (decide (datetime_min <= clock dbS2 - ttl <= datetime_max)).
    + exact (sweep_twice ttl dbS dbS1 dbS2 out db3 HS HSr HSc Hrun).
    + injection Hrun as _ <-. exact HSr.
Qed.

(** The query set of [get_all_expired] is lazy and its cutoff is fixed
    when it is built: when the cutoff is a [datetime], the call
    returns a query set without sending anything to the backend, and
    that query set, listed later on a table that has changed and at a
    later time, gives the rows of the table as it is then that are
    older than the time of the call, less [TASK_RESULT_EXPIRES].  This
    holds for both managers. *)
Theorem get_all_expired_cutoff_is_fixed ttl
    (dbT dbT' : DB Task) (dbS dbS' : DB TaskSet) :
  datetime_min <= clock dbT - ttl <= datetime_max ->
  datetime_min <= clock dbS - ttl <= datetime_max ->
  next_fault dbT' = None ->
  next_fault dbS' = None ->
  (exists q l db1,
     TaskManager.get_all_expired ttl dbT = (Return q, dbT) /\
     qs_list q dbT' = (Return l, db1) /\
     forall r, r ∈ l <->
       (exists k, rows dbT' !! k = Some r) /\ date_done r < clock dbT - ttl) /\
  (exists q l db1,
     TaskSetManager.get_all_expired ttl dbS = (Return q, dbS) /\
     qs_list q dbS' = (Return l, db1) /\
     forall r, r ∈ l <->
       (exists k, rows dbS' !! k = Some r) /\
       ts_date_done r < clock dbS - ttl).
Proof.
  intros HrT HrS HT HS. split.
  - destruct (qs_list_run (mkQuerySet (clock dbT - ttl)) dbT' HT)
      as (l & Hlist & Hmem).
    eexists _, l, _. split; [|split; [exact Hlist | exact Hmem]].
    rewrite TaskManager_get_all_expired_run.
    destruct (decide (datetime_min <= clock dbT - ttl <= datetime_max));
      [reflexivity | contradiction].
  - destruct (qs_list_run (mkQuerySet (clock dbS - ttl)) dbS' HS)
      as (l & Hlist & Hmem).
    eexists _, l, _. split; [|split; [exact Hlist | exact Hmem]].
    rewrite TaskSetManager_get_all_expired_run.
    destruct (decide (datetime_min <= clock dbS - ttl <= datetime_max));
      [reflexivity | contradiction].
Qed.

(** A record written by [store_result] expires exactly when more than
    [TASK_RESULT_EXPIRES] has passed since that write: a sweep made at
    time [clock db1'] on the table the write left, with a cutoff that
    is a [datetime] and a backend that answers, removes the record
    when [clock db < clock db1' - ttl] and keeps it, as written,
    otherwise. *)
Theorem stored_record_expiry
    (default_status default_result : string)
    (default_traceback : option string)
    (key res st : string) (tb : option string) (n ttl : Z)
    (db db1 db1' : DB Task) :
  table_ok db ->
  TaskManager.store_result default_status default_result default_traceback
    key res st tb n db = (Return tt, db1) ->
  rows db1' = rows db1 ->
  datetime_min <= clock db1' - ttl <= datetime_max ->
  next_fault db1' = None ->
  exists db2,
    TaskManager.delete_expired ttl db1' = (Return tt, db2) /\
    rows db2 !! key =
    if decide (clock db < clock db1' - ttl) then None
    else Some (stored key res st tb (clock db)).
Proof.
  intros Hok Hstore Hsame Hrange Hnf.
  destruct (store_result_filed default_status default_result
              default_traceback key res st tb n db db1 Hok Hstore)
    as [Hfiled _].
  rewrite <- Hsame in Hfiled.
  rewrite TaskManager_delete_expired_run.
  destruct (decide (datetime_min <= clock db1' - ttl <= datetime_max));
    [|contradiction].
  pose proof (qs_delete_run (mkQuerySet (clock db1' - ttl)) db1') as Hdel.
  rewrite Hnf in Hdel. destruct Hdel as (db2 & Hdel & Hrows).
  exists db2. split; [exact Hdel|].
  rewrite Hrows, Hfiled. reflexivity.
Qed.

(** ** Further properties of [TaskSetManager] *)

(** [get_taskset], by cases on the backend's answer. *)
Lemma get_taskset_run (key : string) (db : DB TaskSet) :
  TaskSetManager.get_taskset key db =
  (match next_fault db with
   | Some e => Raise (BackendError e)
   | None => Return (rows db !! key)
   end,
   sent (EvGet key) db).
Proof.
  unfold TaskSetManager.get_taskset, try_except.
  unfold bind at 1. rewrite get_run.
  destruct (next_fault db); [reflexivity|].
  destruct (rows db !! key); reflexivity.
Qed.

(** [get_taskset] is a plain lookup: one query, no write, no rollback,
    no retry.  When the backend answers, the result is the row filed
    under the key, or [None] when there is none; when it does not, its
    error reaches the caller as it is, and is not taken for a miss. *)
Theorem get_taskset_is_lookup (key : string) (db : DB TaskSet) :
  exists out db',
    TaskSetManager.get_taskset key db = (out, db') /\
    rows db' = rows db /\
    log db' = (log db ++ [EvGet key])%list /\
    match next_fault db with
    | Some e => out = Raise (BackendError e)
    | None => out = Return (rows db !! key)
    end.
Proof.
  rewrite get_taskset_run. eexists _, _. split; [reflexivity|].
  split; [reflexivity|]. split; [reflexivity|].
  destruct (next_fault db); reflexivity.
Qed.

(** How a run of [TaskSetManager.store_result] may end on a well-formed
    table. *)
Lemma taskset_store_result_spec (key res : string) (flag : bool)
    (db : DB TaskSet) :
  table_ok db ->
  exists out db',
    TaskSetManager.store_result key res flag db = (out, db') /\
    match out with
    | Return _ =>
        rows db' = <[key := mkTaskSet key res (clock db)]> (rows db)
    | Raise e => rows db' = rows db /\ e <> DoesNotExist
    end.
Proof.
  intros Hok.
  assert (Htry : forall d : DB TaskSet,
    rows d = rows db -> clock d = clock db ->
    exists out d',
      TaskSetManager.store_result_try key res d = (out, d') /\
      match out with
      | Return _ =>
          rows d' = <[key := mkTaskSet key res (clock db)]> (rows db)
      | Raise e => rows d' = rows db /\ e <> DoesNotExist
      end).
  { intros d Hr Hc.
    pose proof (store_result_try_run key res d) as Hrun.
    cbv zeta in Hrun. rewrite Hrun. clear Hrun. rewrite Hr, Hc.
    destruct (next_fault d).
    - eexists _, _. split; [reflexivity|]. split; [exact Hr|discriminate].
    - destruct (rows db !! key) as [t|] eqn:Hl.
      + rewrite (Hok _ _ Hl).
        destruct (next_fault (sent (EvGetOrCreate key) d)).
        * eexists _, _. split; [reflexivity|].
          split; [exact Hr|discriminate].
        * eexists _, _. split; reflexivity.
      + eexists _, _. split; reflexivity. }
  destruct flag.
  - rewrite store_result_retry.
    destruct (Htry db eq_refl eq_refl) as (out & d' & Hrun & Hout).
    rewrite Hrun. destruct out as [u|e].
    + exists (Return u), d'. split; [reflexivity | exact Hout].
    + destruct Hout as [Hrows _].
      destruct (next_fault d') as [e'|].
      { eexists _, _. split; [reflexivity|].
        split; [exact Hrows | discriminate]. }
      rewrite store_result_no_retry.
      apply Htry; simpl; [exact Hrows|].
      pose proof (store_result_try_run key res db) as Hrun'.
      cbv zeta in Hrun'. rewrite Hrun' in Hrun. clear Hrun'.
      destruct (next_fault db); [injection Hrun as _ <-; reflexivity|].
      destruct (rows db !! key); [|discriminate].
      destruct (next_fault (sent (EvGetOrCreate key) db));
        [injection Hrun as _ <-; reflexivity | discriminate].
  - rewrite store_result_no_retry. apply Htry; reflexivity.
Qed.

(** [TaskSetManager.store_result] is all or nothing on a well-formed
    table, with the flag on or off: either the row under the key
    becomes the given result stamped with the current time, or an
    error is raised and the table is as it was; every other row is
    untouched and the table stays well formed. *)
Theorem taskset_store_result_all_or_nothing (key res : string)
    (flag : bool) (db : DB TaskSet) :
  table_ok db ->
  exists out db',
    TaskSetManager.store_result key res flag db = (out, db') /\
    table_ok db' /\
    (forall k, k <> key -> rows db' !! k = rows db !! k) /\
    match out with
    | Return _ => rows db' !! key = Some (mkTaskSet key res (clock db))
    | Raise e => rows db' = rows db /\ e <> DoesNotExist
    end.
Proof.
  intros Hok.
  destruct (taskset_store_result_spec key res flag db Hok)
    as (out & db' & Hrun & Hout).
  exists out, db'. split; [exact Hrun|].
  destruct out as [u|e].
  - split; [|split].
    + eapply (table_ok_insert db (mkTaskSet key res (clock db)));
        [exact Hok | exact Hout].
    + intros k Hk. rewrite Hout. apply lookup_insert_ne. congruence.
    + rewrite Hout. apply lookup_insert_eq.
  - destruct Hout as [Hrows Hne]. split; [|split].
    + eapply table_ok_same; eauto.
    + intros k _. rewrite Hrows. reflexivity.
    + split; assumption.
Qed.

(** Round trip: after a successful [store_result key res], and with no
    write in between, [get_taskset key] returns the record with that
    result, stamped with the time of the write, whenever the backend
    answers the lookup. *)
Theorem get_taskset_after_store_result (key res : string) (flag : bool)
    (db db1 db1' : DB TaskSet) :
  table_ok db ->
  TaskSetManager.store_result key res flag db = (Return tt, db1) ->
  rows db1' = rows db1 ->
  next_fault db1' = None ->
  TaskSetManager.get_taskset key db1' =
  (Return (Some (mkTaskSet key res (clock db))), sent (EvGet key) db1').
Proof.
  intros Hok Hstore Hsame Hnf.
  destruct (taskset_store_result_spec key res flag db Hok)
    as (out & d & Hrun & Hout).
  rewrite Hstore in Hrun. injection Hrun as <- <-.
  rewrite get_taskset_run, Hnf, Hsame, Hout, lookup_insert_eq.
  reflexivity.
Qed.

(** The retry of [TaskSetManager.store_result] is bounded whatever the
    backend does.  With the flag off the call is one attempt and never
    rolls back.  With the flag on it makes one attempt, or two with
    one rollback in between; when it raises, either the second attempt
    has failed or the rollback after the first has raised. *)
Theorem taskset_store_result_attempts (key res : string) (flag : bool)
    (db : DB TaskSet) :
  exists out db' (a r : nat),
    TaskSetManager.store_result key res flag db = (out, db') /\
    attempts (log db') = (attempts (log db) + a)%nat /\
    rollbacks (log db') = (rollbacks (log db) + r)%nat /\
    (1 <= a <= Nat.b2n flag + 1)%nat /\ (r <= Nat.b2n flag)%nat /\
    match out with
    | Return _ => a = (r + 1)%nat
    | Raise _ =>
        (a = (Nat.b2n flag + 1)%nat /\ r = Nat.b2n flag) \/ a = r
    end.
Proof.
  destruct flag.
  - rewrite store_result_retry.
    destruct (TaskSetManager.store_result_try key res db)
      as [[u|e] db1] eqn:H1;
      destruct (store_result_try_log key res db _ _ H1) as (Ha & Hr & _).
    + exists (Return u), db1, 1%nat, 0%nat. split; [reflexivity|]. simpl.
      repeat split; lia.
    + destruct (next_fault db1) as [e'|].
      * exists (Raise (BackendError e')), (rolled_back db1), 1%nat, 1%nat.
        split; [reflexivity|]. simpl. rewrite attempts_app, rollbacks_app.
        simpl. repeat split; lia.
      * rewrite store_result_no_retry.
        destruct (TaskSetManager.store_result_try key res (rolled_back db1))
          as [out db2] eqn:H2.
        destruct (store_result_try_log key res _ _ _ H2) as (Ha2 & Hr2 & _).
        simpl in Ha2, Hr2. rewrite attempts_app in Ha2.
        rewrite rollbacks_app in Hr2. simpl in Ha2, Hr2.
        exists out, db2, 2%nat, 1%nat. split; [reflexivity|]. simpl.
        split; [lia|]. split; [lia|]. split; [lia|]. split; [lia|].
        destruct out; lia.
  - rewrite store_result_no_retry.
    destruct (TaskSetManager.store_result_try key res db)
      as [out db1] eqn:H1.
    destruct (store_result_try_log key res db _ _ H1) as (Ha & Hr & _).
    exists out, db1, 1%nat, 0%nat. split; [reflexivity|]. simpl.
    split; [lia|]. split; [lia|]. split; [lia|]. split; [lia|].
    destruct out; lia.
Qed.

(** With the flag on, a rollback that raises ends
    [TaskSetManager.store_result] after its first attempt: the error of
    the rollback reaches the caller and the table is as it was. *)
Theorem taskset_failed_rollback_ends_call (key res : string)
    (db db1 : DB TaskSet) (e1 : Exn) (e' : DbError) :
  TaskSetManager.store_result_try key res db = (Raise e1, db1) ->
  next_fault db1 = Some e' ->
  TaskSetManager.store_result key res true db =
  (Raise (BackendError e'), rolled_back db1) /\
  rows (rolled_back db1) = rows db /\
  attempts (log (rolled_back db1)) = (attempts (log db) + 1)%nat.
Proof.
  intros H1 Hnf. rewrite store_result_retry, H1, Hnf.
  destruct (store_result_try_log key res db _ _ H1) as (Ha & _ & Hrows).
  split; [reflexivity|]. split.
  - simpl. apply (Hrows e1 eq_refl).
  - simpl. rewrite attempts_app. simpl. lia.
Qed.

(** ** Invariants of the reads and of the sweep *)

(** [get_task] never changes or removes a row that is there: all it
    can do to the table is add the row of its own key, and it keeps
    the table well formed. *)
Theorem get_task_only_adds
    (default_status default_result : string)
    (default_traceback : option string)
    (key : string) (n : Z) (db : DB Task) :
  exists out db',
    TaskManager.get_task default_status default_result default_traceback
      key n db = (out, db') /\
    (forall k r, rows db !! k = Some r -> rows db' !! k = Some r) /\
    (forall k, k <> key -> rows db' !! k = rows db !! k) /\
    (table_ok db -> table_ok db').
Proof.
  destruct (get_task_spec default_status default_result default_traceback
              key n db) as (out & db' & Hrun & _ & Hout).
  exists out, db'. split; [exact Hrun|].
  assert (Hcases : rows db' = rows db \/
    (rows db !! key = None /\
     rows db' =
     <[key := auto_now (clock db)
                (TaskManager.Task_new default_status default_result
                   default_traceback key None None None)]> (rows db))).
  { destruct out as [t|e]; [|left; apply Hout].
    destruct (rows db !! key) as [t0|]; [left; apply Hout|].
    right. destruct Hout as [-> Hrows]. split; [reflexivity | exact Hrows]. }
  destruct Hcases as [Hrows | [Hmiss Hrows]]; rewrite Hrows.
  - split; [auto|]. split; [auto|]. intros Hok. eapply table_ok_same; eauto.
  - split; [|split].
    + intros k r Hk. rewrite lookup_insert_ne; [exact Hk | congruence].
    + intros k Hk. apply lookup_insert_ne. congruence.
    + intros Hok. eapply table_ok_insert; [exact Hok|]. exact Hrows.
Qed.

(** [delete_expired] only deletes: every row found after a sweep is a
    row that was there before, under the same key and unchanged, and
    the table stays well formed.  This holds for both managers. *)
Theorem delete_expired_only_deletes ttl (dbT : DB Task) (dbS : DB TaskSet) :
  (exists out db',
     TaskManager.delete_expired ttl dbT = (out, db') /\
     (forall k r, rows db' !! k = Some r -> rows dbT !! k = Some r) /\
     (table_ok dbT -> table_ok db')) /\
  (exists out db',
     TaskSetManager.delete_expired ttl dbS = (out, db') /\
     (forall k r, rows db' !! k = Some r -> rows dbS !! k = Some r) /\
     (table_ok dbS -> table_ok db')).
Proof.
  split.
  - destruct (TaskManager.delete_expired ttl dbT) as [out db'] eqn:Hrun.
    exists out, db'. split; [reflexivity|].
    rewrite TaskManager_delete_expired_run in Hrun.
    assert (Hsub : forall k r, rows db' !! k = Some r ->
                               rows dbT !! k = Some r).
    { destruct (decide (datetime_min <= clock dbT - ttl <= datetime_max)).
      - intros k r Hk. apply (sweep_lookup ttl dbT out db' Hrun k r Hk).
      - injection Hrun as _ <-. auto. }
    split; [exact Hsub|]. intros Hok k r Hk. apply Hok, Hsub, Hk.
  - destruct (TaskSetManager.delete_expired ttl dbS) as [out db'] eqn:Hrun.
    exists out, db'. split; [reflexivity|].
    rewrite TaskSetManager_delete_expired_run in Hrun.
    assert (Hsub : forall k r, rows db' !! k = Some r ->
                               rows dbS !! k = Some r).
    { destruct (decide (datetime_min <= clock dbS - ttl <= datetime_max)).
      - intros k r Hk. apply (sweep_lookup ttl dbS out db' Hrun k r Hk).
      - injection Hrun as _ <-. auto. }
    split; [exact Hsub|]. intros Hok k r Hk. apply Hok, Hsub, Hk.
Qed.

(** ** Concrete runs *)

Lemma table_ok_empty_db {Row} `{Model Row} now answers :
  table_ok (empty_db (Row := Row) now answers).
Proof. intros k r Hk. unfold empty_db in Hk. simpl in Hk. discriminate. Qed.

Lemma table_ok_one_task_db now answers : table_ok (one_task_db now answers).
Proof.
  intros k r Hk. unfold one_task_db in Hk. simpl in Hk.
  apply lookup_singleton_Some in Hk as [<- <-]. reflexivity.
Qed.

Lemma nonpositive_budget_is_one_attempt_witness :
  exists db',
    TaskManager.get_task "PENDING" "" None "t1" (-3)
      (empty_db 100 [Some conflict; None]) =
    (Raise (BackendError conflict), db') /\
    attempts (log db') = 1%nat /\ rollbacks (log db') = 0%nat.
Proof.
  destruct (nonpositive_budget_is_one_attempt "PENDING" "" None "t1" "42"
              "SUCCESS" None (-3) (empty_db 100 [Some conflict; None]))
    as (Hget & _ & Hlog & _); [lia|].
  rewrite Hget. eexists. split; [vm_compute; reflexivity|].
  split; reflexivity.
Defined.

Lemma get_task_recovers_witness :
  exists t db',
    TaskManager.get_task "PENDING" "" None "t1" 2
      (one_task_db 100
         [Some conflict; None; Some outage; None; None; Some outage]) =
    (Return t, db') /\
    t = failed_task /\ attempts (log db') = 3%nat /\
    rollbacks (log db') = 2%nat.
Proof.
  destruct (get_task_recovers "PENDING" "" None "t1" [conflict; outage]
              [None; Some outage] 2
              (one_task_db 100
                 [Some conflict; None; Some outage; None; None; Some outage]))
    as (t & db' & Hrun & Hrow & Hatt & Hrb & _);
    [reflexivity | intros e; discriminate | simpl; lia |].
  exists t, db'. split; [exact Hrun|].
  split; [apply Hrow|]. split; [exact Hatt | exact Hrb].
Defined.

Lemma store_result_recovers_witness :
  exists db',
    TaskManager.store_result "PENDING" "" None "t1" "42" "SUCCESS" None 2
      (one_task_db 100 [None; Some conflict; None; None; None]) =
    (Return tt, db') /\
    rows db' !! "t1" = Some (mkTask "t1" "SUCCESS" "42" None 100) /\
    attempts (log db') = 2%nat.
Proof.
  destruct (store_result_recovers "PENDING" "" None "t1" "42" "SUCCESS" None
              [AtSave conflict] [None; None] 2
              (one_task_db 100 [None; Some conflict; None; None; None]))
    as (db' & Hrun & Hrows & Hatt & _);
    [ apply table_ok_one_task_db | reflexivity
    | repeat constructor; intros _; exists failed_task; reflexivity
    | intros [|[|i]] e Hi; [discriminate | discriminate | lia]
    | simpl; lia | ].
  exists db'. split; [exact Hrun|]. split; [|exact Hatt].
  rewrite Hrows. apply lookup_insert_eq.
Defined.

Lemma larger_budget_same_success_witness :
  exists t db',
    TaskManager.get_task "PENDING" "" None "t1" 5
      (empty_db 100 [Some conflict]) = (Return t, db') /\
    attempts (log db') = 2%nat.
Proof.
  destruct (larger_budget_same_success "PENDING" "" None "t1" "42" "SUCCESS"
              None 1 5 (empty_db 100 [Some conflict])) as [Hget _]; [lia|].
  eexists _, _. split.
  - apply Hget. vm_compute. reflexivity.
  - reflexivity.
Defined.

Lemma store_result_all_or_nothing_witness :
  exists db',
    TaskManager.store_result "PENDING" "" None "t1" "42" "SUCCESS" None 0
      (one_task_db 100 [None; Some outage]) =
    (Raise (BackendError outage), db') /\
    rows db' = {[ "t1" := failed_task ]}.
Proof.
  destruct (store_result_all_or_nothing "PENDING" "" None "t1" "42" "SUCCESS"
              None 0 (one_task_db 100 [None; Some outage]))
    as (out & db' & Hrun & _ & _ & Hout); [apply table_ok_one_task_db|].
  assert (Hraise : out = Raise (BackendError outage)).
  { vm_compute in Hrun. injection Hrun as <- _. reflexivity. }
  subst out. destruct Hout as [Hrows _].
  exists db'. split; [exact Hrun | exact Hrows].
Defined.

Lemma is_successful_after_store_result_witness :
  let db1 : DB Task :=
    mkDB {[ "t1" := mkTask "t1" "SUCCESS" "42" None 100 ]} 100 []
      [EvGetOrCreate "t1"] in
  exists db2,
    TaskManager.is_successful "PENDING" "" None "t1"
      (mkDB (rows db1) 120 [Some conflict] []) = (Return true, db2) /\
    rows db2 = rows db1.
Proof.
  intros db1.
  destruct (is_successful_after_store_result "PENDING" "" None "t1" "42"
              "SUCCESS" None 2 (empty_db 100 []) db1
              (mkDB (rows db1) 120 [Some conflict] []))
    as (out & db2 & Hrun & Hrows & _ & Hret);
    [ apply table_ok_empty_db | vm_compute; reflexivity | reflexivity | ].
  exists db2. split; [|exact Hrows].
  rewrite Hrun. f_equal.
  apply (Hret 1%nat); [lia | intros e; discriminate | ].
  intros [|j] e Hj; [discriminate | lia].
Defined.

Lemma is_successful_creates_record_witness :
  exists db',
    TaskManager.is_successful "PENDING" "" None "t9" (one_task_db 100 []) =
    (Return false, db') /\
    rows db' !! "t9" = Some (mkTask "t9" "PENDING" "" None 100).
Proof.
  destruct (is_successful_creates_record "PENDING" "" None "t9"
              (one_task_db 100 []))
    as (db' & Hrun & Hrows); [reflexivity | reflexivity |].
  exists db'. split; [exact Hrun|]. rewrite Hrows. apply lookup_insert_eq.
Defined.

Lemma delete_expired_is_not_retried_witness :
  exists db',
    TaskManager.delete_expired 60 (one_task_db 1000 [Some outage; None]) =
    (Raise (BackendError outage), db') /\
    rows db' !! "t1" = Some failed_task /\ rollbacks (log db') = 0%nat.
Proof.
  destruct (delete_expired_is_not_retried 60 outage
              (one_task_db 1000 [Some outage; None])
              (empty_db 1000 [Some outage]))
    as [(db' & Hrun & Hrows & Hlog) _];
    [ vm_compute; split; discriminate | vm_compute; split; discriminate
    | reflexivity | reflexivity | ].
  exists db'. split; [exact Hrun|]. split.
  - rewrite Hrows. reflexivity.
  - rewrite Hlog. reflexivity.
Defined.

Lemma delete_expired_twice_witness :
  exists db3,
    TaskManager.delete_expired 60
      (mkDB {[ "t2" := fresh_task ]} 1000 [] []) = (Return tt, db3) /\
    rows db3 = {[ "t2" := fresh_task ]}.
Proof.
  destruct (delete_expired_twice 60 two_task_db
              (mkDB {[ "t2" := fresh_task ]} 1000 [] [EvDelete 940])
              (mkDB {[ "t2" := fresh_task ]} 1000 [] [])
              (empty_db 1000 []) (mkDB ∅ 1000 [] [EvDelete 940])
              (empty_db 1000 []))
    as [HT _];
    [ vm_compute; reflexivity | reflexivity | simpl; lia
    | vm_compute; reflexivity | reflexivity | simpl; lia | ].
  destruct (TaskManager.delete_expired 60
              (mkDB {[ "t2" := fresh_task ]} 1000 [] [])) as [out db3] eqn:Hrun.
  pose proof (HT out db3 eq_refl) as Hrows.
  exists db3. split; [|exact Hrows].
  vm_compute in Hrun. injection Hrun as <- _. reflexivity.
Defined.

Lemma get_all_expired_cutoff_is_fixed_witness :
  exists q l db1,
    TaskManager.get_all_expired 60 (empty_db 1000 []) =
    (Return q, empty_db 1000 []) /\
    qs_list q (mkDB {[ "t2" := fresh_task ]} 2000 [] []) = (Return l, db1) /\
    fresh_task ∉ l.
Proof.
  destruct (get_all_expired_cutoff_is_fixed 60 (empty_db 1000 [])
              (mkDB {[ "t2" := fresh_task ]} 2000 [] [])
              (empty_db 1000 []) (empty_db 2000 []))
    as [(q & l & db1 & Hq & Hl & Hmem) _];
    [ vm_compute; split; discriminate | vm_compute; split; discriminate
    | reflexivity | reflexivity | ].
  exists q, l, db1. split; [exact Hq|]. split; [exact Hl|].
  intros Hin. apply Hmem in Hin as [_ Hlt]. simpl in Hlt. lia.
Defined.

Lemma stored_record_expiry_witness :
  let db1 : DB Task :=
    mkDB {[ "t1" := mkTask "t1" "SUCCESS" "42" None 100 ]} 100 []
      [EvGetOrCreate "t1"] in
  (exists db2,
     TaskManager.delete_expired 60 (mkDB (rows db1) 160 [] []) =
     (Return tt, db2) /\
     rows db2 !! "t1" = Some (mkTask "t1" "SUCCESS" "42" None 100)) /\
  (exists db2,
     TaskManager.delete_expired 60 (mkDB (rows db1) 161 [] []) =
     (Return tt, db2) /\
     rows db2 !! "t1" = None).
Proof.
  intros db1. split.
  - destruct (stored_record_expiry "PENDING" "" None "t1" "42" "SUCCESS" None
                2 60 (empty_db 100 []) db1 (mkDB (rows db1) 160 [] []))
      as (db2 & Hrun & Hrow);
      [ apply table_ok_empty_db | vm_compute; reflexivity
      | reflexivity | vm_compute; split; discriminate | reflexivity | ].
    exists db2. split; [exact Hrun | exact Hrow].
  - destruct (stored_record_expiry "PENDING" "" None "t1" "42" "SUCCESS" None
                2 60 (empty_db 100 []) db1 (mkDB (rows db1) 161 [] []))
      as (db2 & Hrun & Hrow);
      [ apply table_ok_empty_db | vm_compute; reflexivity
      | reflexivity | vm_compute; split; discriminate | reflexivity | ].
    exists db2. split; [exact Hrun | exact Hrow].
Defined.

Lemma taskset_store_result_all_or_nothing_witness :
  exists db',
    TaskSetManager.store_result "ts1" "[1, 2]" true
      (empty_db 100 [Some conflict; None]) = (Return tt, db') /\
    rows db' !! "ts1" = Some (mkTaskSet "ts1" "[1, 2]" 100).
Proof.
  destruct (taskset_store_result_all_or_nothing "ts1" "[1, 2]" true
              (empty_db 100 [Some conflict; None]))
    as (out & db' & Hrun & _ & _ & Hout); [apply table_ok_empty_db|].
  assert (Hret : out = Return tt).
  { vm_compute in Hrun. injection Hrun as <- _. reflexivity. }
  subst out. exists db'. split; [exact Hrun | exact Hout].
Defined.

Lemma get_taskset_after_store_result_witness :
  let db1 : DB TaskSet :=
    mkDB {[ "ts1" := mkTaskSet "ts1" "[1, 2]" 100 ]} 100 []
      [EvGetOrCreate "ts1"] in
  exists db2,
    TaskSetManager.get_taskset "ts1" (mkDB (rows db1) 150 [] []) =
    (Return (Some (mkTaskSet "ts1" "[1, 2]" 100)), db2).
Proof.
  intros db1. eexists.
  apply (get_taskset_after_store_result "ts1" "[1, 2]" true
           (empty_db 100 []) db1 (mkDB (rows db1) 150 [] []));
    [ apply table_ok_empty_db | vm_compute; reflexivity
    | reflexivity | reflexivity ].
Defined.

Lemma expiry_cutoff_overflow_witness :
  TaskManager.delete_expired 2000 two_task_db =
  (Raise OverflowError, two_task_db).
Proof.
  destruct (expiry_cutoff_overflow 2000 two_task_db (empty_db 1000 []))
    as (_ & Hdel & _);
    [ intros [Hlo _]; vm_compute in Hlo; apply Hlo; reflexivity
    | intros [Hlo _]; vm_compute in Hlo; apply Hlo; reflexivity | ].
  exact Hdel.
Defined.

Lemma failed_rollback_ends_call_witness :
  exists db',
    TaskManager.get_task "PENDING" "" None "t1" 1
      (one_task_db 100 [Some conflict; Some outage; None]) =
    (Raise (BackendError outage), db') /\
    attempts (log db') = 1%nat.
Proof.
  destruct (failed_rollback_ends_call "PENDING" "" None "t1" "42" "SUCCESS"
              None 1 (one_task_db 100 [Some conflict; Some outage; None])
              conflict outage)
    as (Hget & _ & _ & Hlog); [lia | reflexivity | reflexivity |].
  eexists. split; [exact Hget|]. rewrite Hlog. reflexivity.
Defined.

Lemma taskset_failed_rollback_ends_call_witness :
  exists db',
    TaskSetManager.store_result "ts1" "[1, 2]" true
      (empty_db 100 [Some conflict; Some outage; None]) =
    (Raise (BackendError outage), db') /\
    rows db' = ∅.
Proof.
  destruct (taskset_failed_rollback_ends_call "ts1" "[1, 2]"
              (empty_db 100 [Some conflict; Some outage; None])
              (mkDB ∅ 100 [Some outage; None] [EvGetOrCreate "ts1"])
              (BackendError conflict) outage)
    as (Hrun & Hrows & _); [vm_compute; reflexivity | reflexivity |].
  eexists. split; [exact Hrun | exact Hrows].
Defined.
